(** * MoonForge native crash handler (Android NDK): model and properties

    Shallow embedding of [Plugins/Android/moonforge_crash_handler.c].

    The file-scope statics of the C unit become the fields of one record,
    [world], together with the part of the process the unit talks to through
    libc (the kernel's signal dispositions, the alternate signal stack, the
    heap) and a trace of the effects an observer can see (logcat lines,
    callback invocations, re-raised signals).  Every C function is a function
    from [world] to [world]; what the platform answers to a call the unit
    makes (does [sigaction] fail, what does [malloc] return, which frames does
    the unwinder see, what does [dladdr] know) is an explicit argument or a
    field of [platform].

    Character arrays are lists of bytes written through [snprintf], whose
    truncation rule and return value follow ISO C; a store that falls outside
    the destination array is kept apart in [spill] so that it can be
    observed. *)

From Stdlib Require Import ZArith Ascii String DecimalString HexadecimalString Lia.
From stdpp Require Import base option list gmap.

Open Scope Z_scope.

(** ** Text and number rendering *)

Definition T (s : string) : list ascii := list_ascii_of_string s.

Arguments T : simpl never.

Definition NUL : ascii := Ascii.zero.

(** The double quote, and a JSON key between double quotes. *)
Definition dq : ascii := ascii_of_nat 34.
Definition Q (s : string) : list ascii := dq :: T s ++ [dq].

Definition len {A} (l : list A) : Z := Z.of_nat (length l).

(** [%d] and [%td] *)
Definition fmt_d (z : Z) : list ascii :=
  T (DecimalString.NilZero.string_of_int (Z.to_int z)).

(** [%lu] *)
Definition fmt_lu (z : Z) : list ascii :=
  T (DecimalString.NilZero.string_of_uint (N.to_uint (Z.to_N z))).

(** [%p]; bionic prints a pointer as [0x] followed by lower-case hexadecimal
    digits, the null pointer as [0x0]. *)
Definition fmt_p (a : Z) : list ascii :=
  T "0x" ++ T (HexadecimalString.NilZero.string_of_uint (N.to_hex_uint (Z.to_N a))).

(** ** What the platform supplies *)

(** The result record of [dladdr]; a null [dli_fname] or [dli_sname] is
    [None]. *)
Record Dl_info := {
  dli_fname : option (list ascii);
  dli_fbase : Z;
  dli_sname : option (list ascii);
  dli_saddr : Z
}.

(** Constants of the NDK headers and answers of the running system.  The
    source names them but does not define them. *)
Record platform := {
  SIGABRT : Z;
  SIGBUS : Z;
  SIGFPE : Z;
  SIGILL : Z;
  SIGSEGV : Z;
  SIGTRAP : Z;
  SIGPIPE : Z;
  SA_SIGINFO : Z;
  SA_ONSTACK : Z;
  SIGSTKSZ : Z;
  (** one more than the largest [size_t] *)
  SIZE_MODULUS : Z;
  (** [dladdr addr info]: [None] is the return value 0 *)
  dladdr : Z -> option Dl_info;
  (** does [sigaction] on this signal number return non-zero; taken to
      depend on the number only, as the [EINVAL] of POSIX does *)
  sigaction_fails : Z -> bool
}.

(** ** Arrays in memory *)

(** An array of known extent with the stores that missed it.  Positions are
    offsets from the first element. *)
Record array (A : Type) := {
  cells : list A;
  spill : list (Z * A)
}.
Arguments cells {A} _.
Arguments spill {A} _.

Definition fresh {A} (l : list A) : array A := {| cells := l; spill := [] |}.

(** [base[p] = x] *)
Definition store {A} (m : array A) (p : Z) (x : A) : array A :=
  if (0 <=? p) && (p <? len (cells m))
  then {| cells := <[Z.to_nat p := x]> (cells m); spill := spill m |}
  else {| cells := cells m; spill := spill m ++ [(p, x)] |}.

(** [base[p .. p + length s - 1] = s], as one copy: the part of the run that
    falls inside the array replaces what was there, the part that falls
    behind it is recorded in [spill] with its offsets.  For [p] from 0 on
    this is the same as storing the elements one by one, see
    [store_bytes_cons]; no offset of this unit is negative, and a run that
    starts at a negative offset is recorded as spilled whole. *)
Definition store_bytes {A} (m : array A) (p : Z) (s : list A) : array A :=
  if p <? 0
  then {| cells := cells m;
          spill := spill m ++ imap (fun i x => (p + Z.of_nat i, x)) s |}
  else
    let first := Z.to_nat p in
    let room := (length (cells m) - first)%nat in
    {| cells := take first (cells m) ++ take room s
                ++ drop (first + length s) (cells m);
       spill := spill m ++ imap (fun i x => (p + Z.of_nat (room + i), x)) (drop room s) |}.

(** The C string held in a character array: the bytes before the first NUL. *)
Fixpoint cstring (l : list ascii) : list ascii :=
  match l with
  | [] => []
  | c :: l' => if Ascii.eqb c NUL then [] else c :: cstring l'
  end.

(** [snprintf(base + dst, n, ...)] where the conversion of the format and its
    arguments yields [s]: at most [n - 1] characters are stored, then a NUL;
    nothing is stored when [n] is 0; the value returned is the length of [s]
    whether or not it was cut.  This is the rule of ISO C for every [n]; a
    libc that refuses an [n] above [INT_MAX] stores nothing in that case.
    Texts of [INT_MAX] characters or more are not modelled. *)
Definition snprintf (m : array ascii) (dst n : Z) (s : list ascii)
  : array ascii * Z :=
  if n =? 0 then (m, len s)
  else (store_bytes m dst (take (Z.to_nat (Z.min (len s) (n - 1))) s ++ [NUL]),
        len s).

(** ** Process state *)

Inductive handler_fn :=
  | SIG_DFL
  | SIG_IGN
  | fn_signalHandler          (** the address of [signalHandler] below *)
  | fn_other (addr : Z).      (** any other function *)

Record sigaction_t := {
  sa_handler : handler_fn;
  sa_flags : Z;
  sa_mask : Z
}.

(** [memset(&action, 0, sizeof(action))], also the value of a static
    [struct sigaction] nobody wrote to. *)
Definition sigaction_zero : sigaction_t :=
  {| sa_handler := SIG_DFL; sa_flags := 0; sa_mask := 0 |}.

Record stack_t := {
  ss_sp : Z;
  ss_flags : Z;
  ss_size : Z
}.

Record siginfo_t := {
  si_signo : Z;
  si_code : Z;
  si_addr : Z
}.

Inductive android_LogPriority := ANDROID_LOG_DEBUG | ANDROID_LOG_ERROR.

(** [Raise sig a]: [raise(sig)] was called while [a] was the action installed
    for [sig]. *)
Inductive event :=
  | Logcat (prio : android_LogPriority) (tag msg : list ascii)
  | Callback (fn : Z) (crashJson : list ascii)
  | Raise (sig : Z) (installed : sigaction_t).

Record world := {
  (** [static struct sigaction previousHandlers[NSIG]]; an absent key is an
      element that still holds its zero initialisation *)
  previousHandlers : gmap Z sigaction_t;
  (** function pointer, 0 is [NULL] *)
  crashCallback : Z;
  isHandlingCrash : Z;
  isInitialized : Z;
  (** pointer, 0 is [NULL] *)
  javaVM : Z;
  (** [static char crashJsonBuffer[32768]] *)
  crashJsonBuffer : array ascii;
  (** [static void* stackFrames[MAX_FRAMES]] *)
  stackFrames : array Z;
  stackFrameCount : Z;
  (** the kernel's table of installed actions; an absent key is the default
      action *)
  disposition : gmap Z sigaction_t;
  (** the alternate signal stack set with [sigaltstack], if any *)
  altstack : option stack_t;
  (** regions handed out by [malloc]: address and size *)
  heap : list (Z * Z);
  (** bytes the handler stored outside its automatic array
      [stackTraceJson] *)
  clobbered : list (Z * ascii);
  (** what the unit did to the outside, oldest first *)
  trace : list event
}.

Definition set_previousHandlers (v : gmap Z sigaction_t) (w : world) : world :=
  {| previousHandlers := v; crashCallback := crashCallback w;
     isHandlingCrash := isHandlingCrash w;
     isInitialized := isInitialized w; javaVM := javaVM w;
     crashJsonBuffer := crashJsonBuffer w; stackFrames := stackFrames w;
     stackFrameCount := stackFrameCount w; disposition := disposition w;
     altstack := altstack w; heap := heap w; clobbered := clobbered w;
     trace := trace w |}.

Definition set_crashCallback (v : Z) (w : world) : world :=
  {| previousHandlers := previousHandlers w; crashCallback := v;
     isHandlingCrash := isHandlingCrash w;
     isInitialized := isInitialized w; javaVM := javaVM w;
     crashJsonBuffer := crashJsonBuffer w; stackFrames := stackFrames w;
     stackFrameCount := stackFrameCount w; disposition := disposition w;
     altstack := altstack w; heap := heap w; clobbered := clobbered w;
     trace := trace w |}.

Definition set_isHandlingCrash (v : Z) (w : world) : world :=
  {| previousHandlers := previousHandlers w;
     crashCallback := crashCallback w; isHandlingCrash := v;
     isInitialized := isInitialized w; javaVM := javaVM w;
     crashJsonBuffer := crashJsonBuffer w; stackFrames := stackFrames w;
     stackFrameCount := stackFrameCount w; disposition := disposition w;
     altstack := altstack w; heap := heap w; clobbered := clobbered w;
     trace := trace w |}.

Definition set_isInitialized (v : Z) (w : world) : world :=
  {| previousHandlers := previousHandlers w;
     crashCallback := crashCallback w;
     isHandlingCrash := isHandlingCrash w; isInitialized := v;
     javaVM := javaVM w; crashJsonBuffer := crashJsonBuffer w;
     stackFrames := stackFrames w; stackFrameCount := stackFrameCount w;
     disposition := disposition w; altstack := altstack w; heap := heap w;
     clobbered := clobbered w; trace := trace w |}.

Definition set_javaVM (v : Z) (w : world) : world :=
  {| previousHandlers := previousHandlers w;
     crashCallback := crashCallback w;
     isHandlingCrash := isHandlingCrash w;
     isInitialized := isInitialized w; javaVM := v;
     crashJsonBuffer := crashJsonBuffer w; stackFrames := stackFrames w;
     stackFrameCount := stackFrameCount w; disposition := disposition w;
     altstack := altstack w; heap := heap w; clobbered := clobbered w;
     trace := trace w |}.

Definition set_crashJsonBuffer (v : array ascii) (w : world) : world :=
  {| previousHandlers := previousHandlers w;
     crashCallback := crashCallback w;
     isHandlingCrash := isHandlingCrash w;
     isInitialized := isInitialized w; javaVM := javaVM w;
     crashJsonBuffer := v; stackFrames := stackFrames w;
     stackFrameCount := stackFrameCount w; disposition := disposition w;
     altstack := altstack w; heap := heap w; clobbered := clobbered w;
     trace := trace w |}.

Definition set_stackFrames (v : array Z) (w : world) : world :=
  {| previousHandlers := previousHandlers w;
     crashCallback := crashCallback w;
     isHandlingCrash := isHandlingCrash w;
     isInitialized := isInitialized w; javaVM := javaVM w;
     crashJsonBuffer := crashJsonBuffer w; stackFrames := v;
     stackFrameCount := stackFrameCount w; disposition := disposition w;
     altstack := altstack w; heap := heap w; clobbered := clobbered w;
     trace := trace w |}.

Definition set_stackFrameCount (v : Z) (w : world) : world :=
  {| previousHandlers := previousHandlers w;
     crashCallback := crashCallback w;
     isHandlingCrash := isHandlingCrash w;
     isInitialized := isInitialized w; javaVM := javaVM w;
     crashJsonBuffer := crashJsonBuffer w; stackFrames := stackFrames w;
     stackFrameCount := v; disposition := disposition w;
     altstack := altstack w; heap := heap w; clobbered := clobbered w;
     trace := trace w |}.

Definition set_disposition (v : gmap Z sigaction_t) (w : world) : world :=
  {| previousHandlers := previousHandlers w;
     crashCallback := crashCallback w;
     isHandlingCrash := isHandlingCrash w;
     isInitialized := isInitialized w; javaVM := javaVM w;
     crashJsonBuffer := crashJsonBuffer w; stackFrames := stackFrames w;
     stackFrameCount := stackFrameCount w; disposition := v;
     altstack := altstack w; heap := heap w; clobbered := clobbered w;
     trace := trace w |}.

Definition set_altstack (v : option stack_t) (w : world) : world :=
  {| previousHandlers := previousHandlers w;
     crashCallback := crashCallback w;
     isHandlingCrash := isHandlingCrash w;
     isInitialized := isInitialized w; javaVM := javaVM w;
     crashJsonBuffer := crashJsonBuffer w; stackFrames := stackFrames w;
     stackFrameCount := stackFrameCount w; disposition := disposition w;
     altstack := v; heap := heap w; clobbered := clobbered w;
     trace := trace w |}.

Definition set_heap (v : list (Z * Z)) (w : world) : world :=
  {| previousHandlers := previousHandlers w;
     crashCallback := crashCallback w;
     isHandlingCrash := isHandlingCrash w;
     isInitialized := isInitialized w; javaVM := javaVM w;
     crashJsonBuffer := crashJsonBuffer w; stackFrames := stackFrames w;
     stackFrameCount := stackFrameCount w; disposition := disposition w;
     altstack := altstack w; heap := v; clobbered := clobbered w;
     trace := trace w |}.

Definition set_clobbered (v : list (Z * ascii)) (w : world) : world :=
  {| previousHandlers := previousHandlers w;
     crashCallback := crashCallback w;
     isHandlingCrash := isHandlingCrash w;
     isInitialized := isInitialized w; javaVM := javaVM w;
     crashJsonBuffer := crashJsonBuffer w; stackFrames := stackFrames w;
     stackFrameCount := stackFrameCount w; disposition := disposition w;
     altstack := altstack w; heap := heap w; clobbered := v;
     trace := trace w |}.

Definition set_trace (v : list event) (w : world) : world :=
  {| previousHandlers := previousHandlers w;
     crashCallback := crashCallback w;
     isHandlingCrash := isHandlingCrash w;
     isInitialized := isInitialized w; javaVM := javaVM w;
     crashJsonBuffer := crashJsonBuffer w; stackFrames := stackFrames w;
     stackFrameCount := stackFrameCount w; disposition := disposition w;
     altstack := altstack w; heap := heap w; clobbered := clobbered w;
     trace := v |}.

Arguments set_previousHandlers v w /.
Arguments set_crashCallback v w /.
Arguments set_isHandlingCrash v w /.
Arguments set_isInitialized v w /.
Arguments set_javaVM v w /.
Arguments set_crashJsonBuffer v w /.
Arguments set_stackFrames v w /.
Arguments set_stackFrameCount v w /.
Arguments set_disposition v w /.
Arguments set_altstack v w /.
Arguments set_heap v w /.
Arguments set_clobbered v w /.
Arguments set_trace v w /.

Definition table_get (t : gmap Z sigaction_t) (sig : Z) : sigaction_t :=
  default sigaction_zero (t !! sig).

Definition emit (e : event) (w : world) : world := set_trace (trace w ++ [e]) w.
Arguments emit e w /.

Definition LOG_TAG : list ascii := T "MoonForgeCrash".
Definition LOGD (msg : list ascii) : world -> world := emit (Logcat ANDROID_LOG_DEBUG LOG_TAG msg).
Definition LOGE (msg : list ascii) : world -> world := emit (Logcat ANDROID_LOG_ERROR LOG_TAG msg).

Definition MAX_FRAMES : Z := 128.

(** The world a process starts in: statics zero-initialised, no handler of
    this unit installed. *)
Definition boot (dispositions : gmap Z sigaction_t) : world :=
  {| previousHandlers := ∅; crashCallback := 0; isHandlingCrash := 0;
     isInitialized := 0; javaVM := 0;
     crashJsonBuffer := fresh (replicate (Z.to_nat 32768) NUL);
     stackFrames := fresh (replicate (Z.to_nat MAX_FRAMES) 0);
     stackFrameCount := 0; disposition := dispositions; altstack := None;
     heap := []; clobbered := []; trace := [] |}.

(** What differs from one signal delivery to the next: the frames the
    unwinder walks, the thread the handler runs on, and the bytes that happen
    to lie where the handler's automatic array is placed. *)
Record delivery := {
  unwound : list Z;
  self : Z;
  junk : list ascii
}.

Section Engine.

Context (P : platform).

Definition size_t (z : Z) : Z := z mod SIZE_MODULUS P.

(** ** Signal names *)

Definition signalName (signal : Z) : list ascii :=
  if signal =? SIGABRT P then T "SIGABRT"
  else if signal =? SIGBUS P then T "SIGBUS"
  else if signal =? SIGFPE P then T "SIGFPE"
  else if signal =? SIGILL P then T "SIGILL"
  else if signal =? SIGSEGV P then T "SIGSEGV"
  else if signal =? SIGTRAP P then T "SIGTRAP"
  else if signal =? SIGPIPE P then T "SIGPIPE"
  else T "UNKNOWN".

Definition signalDescription (signal : Z) : list ascii :=
  if signal =? SIGABRT P then T "Abort signal"
  else if signal =? SIGBUS P then T "Bus error (bad memory access)"
  else if signal =? SIGFPE P then T "Floating-point exception"
  else if signal =? SIGILL P then T "Illegal instruction"
  else if signal =? SIGSEGV P then T "Segmentation fault (invalid memory reference)"
  else if signal =? SIGTRAP P then T "Trace/breakpoint trap"
  else if signal =? SIGPIPE P then T "Broken pipe"
  else T "Unknown signal".

(** ** Stack unwinding *)

(** [current] and [end] point into the frame array; they are kept as offsets
    from its first element. *)
Record BacktraceState := {
  current : Z;
  end_ : Z
}.

Inductive _Unwind_Reason_Code := _URC_NO_REASON | _URC_END_OF_STACK.

(** The argument [pc] is [_Unwind_GetIP(context)]. *)
Definition unwindCallback (pc : Z) (arg : BacktraceState * array Z)
  : _Unwind_Reason_Code * (BacktraceState * array Z) :=
  let '(state, buf) := arg in
  if negb (pc =? 0) then
    if current state =? end_ state then (_URC_END_OF_STACK, (state, buf))
    else (_URC_NO_REASON,
          ({| current := current state + 1; end_ := end_ state |},
           store buf (current state) pc))
  else (_URC_NO_REASON, (state, buf)).

(** [_Unwind_Backtrace]: the platform visits the active frames from the
    innermost outwards, [chain] being their instruction pointers, and stops
    as soon as the callback answers anything but [_URC_NO_REASON]. *)
Fixpoint _Unwind_Backtrace (chain : list Z) (arg : BacktraceState * array Z)
  : BacktraceState * array Z :=
  match chain with
  | [] => arg
  | pc :: outer =>
      match unwindCallback pc arg with
      | (_URC_NO_REASON, arg') => _Unwind_Backtrace outer arg'
      | (_URC_END_OF_STACK, arg') => arg'
      end
  end.

Definition captureStackTrace (chain : list Z) (buffer : array Z) (maxFrames : Z)
  : array Z * Z :=
  let state := {| current := 0; end_ := 0 + maxFrames |} in
  let '(state', buffer') := _Unwind_Backtrace chain (state, buffer) in
  (buffer', current state' - 0).

(** ** Symbol lookup and the frame list *)

(** [strrchr(s, c)] as the offset of the last occurrence of [c], [None] for
    the null pointer. *)
Fixpoint strrchr (s : list ascii) (c : ascii) : option nat :=
  match s with
  | [] => None
  | x :: s' =>
      match strrchr s' c with
      | Some k => Some (S k)
      | None => if Ascii.eqb x c then Some O else None
      end
  end.

Record resolved := {
  moduleName : list ascii;
  symbolName : list ascii;
  symbolOffset : Z
}.

(** A value of type [ptrdiff_t], the signed type as wide as [size_t], in two's
    complement: the difference of two pointers as the machine computes it. *)
Definition ptrdiff_t (z : Z) : Z :=
  (z + SIZE_MODULUS P / 2) mod SIZE_MODULUS P - SIZE_MODULUS P / 2.

(** The lookup block of the loop body in [formatStackTraceJson]. *)
Definition resolve (addr : Z) : resolved :=
  match dladdr P addr with
  | Some info =>
      {| moduleName := match dli_fname info with
                       | Some fname =>
                           match strrchr fname "/"%char with
                           | Some lastSlash => drop (S lastSlash) fname
                           | None => fname
                           end
                       | None => T "???"
                       end;
         symbolName := match dli_sname info with
                       | Some sname => sname
                       | None => T "???"
                       end;
         symbolOffset := match dli_sname info with
                         | Some _ => ptrdiff_t (addr - dli_saddr info)
                         | None => 0
                         end |}
  | None => {| moduleName := T "???"; symbolName := T "???"; symbolOffset := 0 |}
  end.

(** The conversion of the per-frame format string. *)
Definition frame_text (i addr : Z) : list ascii :=
  let r := resolve addr in
  T "{" ++ Q "frame" ++ T ":" ++ fmt_d i
  ++ T "," ++ Q "address" ++ T ":" ++ [dq] ++ fmt_p addr ++ [dq]
  ++ T "," ++ Q "module" ++ T ":" ++ [dq] ++ moduleName r ++ [dq]
  ++ T "," ++ Q "symbol" ++ T ":" ++ [dq] ++ symbolName r ++ [dq]
  ++ T "," ++ Q "offset" ++ T ":" ++ [dq] ++ fmt_d (symbolOffset r) ++ [dq]
  ++ T "}".

(** The body of the [for] loop of [formatStackTraceJson] for index [i], where
    [addr] is [frames[i]]. *)
Definition format_frame (i addr : Z) (bufferSize : Z)
    (buffer : array ascii) (offset : Z) : array ascii * Z :=
  let '(buffer1, offset1) :=
    if 0 <? i then
      let '(b, r) := snprintf buffer offset (size_t (bufferSize - offset)) (T ",") in
      (b, size_t (offset + r))
    else (buffer, offset) in
  let '(buffer2, r2) :=
    snprintf buffer1 offset1 (size_t (bufferSize - offset1)) (frame_text i addr) in
  (buffer2, size_t (offset1 + r2)).

(** The loop; [n] is the number of indices from [i] up to [frameCount]. *)
Fixpoint format_frames (n : nat) (i : Z) (frames : list Z) (bufferSize : Z)
    (buffer : array ascii) (offset : Z) : array ascii * Z :=
  match n with
  | O => (buffer, offset)
  | S n' =>
      if offset <? size_t (bufferSize - 256) then
        let addr := default 0 (frames !! Z.to_nat i) in
        let '(buffer', offset') := format_frame i addr bufferSize buffer offset in
        format_frames n' (i + 1) frames bufferSize buffer' offset'
      else (buffer, offset)
  end.

Definition formatStackTraceJson (buffer : array ascii) (bufferSize : Z)
    (frames : list Z) (frameCount : Z) : array ascii * Z :=
  let offset := 0 in
  let '(buffer0, r0) := snprintf buffer offset (size_t (bufferSize - offset)) (T "[") in
  let offset0 := size_t (offset + r0) in
  let '(buffer1, offset1) :=
    format_frames (Z.to_nat frameCount) 0 frames bufferSize buffer0 offset0 in
  let '(buffer2, r2) := snprintf buffer1 offset1 (size_t (bufferSize - offset1)) (T "]") in
  (buffer2, size_t (offset1 + r2)).

(** What the loop body is meant to append for index [i]: a comma unless the
    frame is the first, then the frame's object. *)
Definition frame_piece (i addr : Z) : list ascii :=
  (if 0 <? i then T "," else []) ++ frame_text i addr.

(** The text the loop appends from index [i] and offset [offset] on, when
    every piece it starts has room. *)
Fixpoint emitted (n : nat) (i : Z) (frames : list Z) (bufferSize offset : Z)
  : list ascii :=
  match n with
  | O => []
  | S n' =>
      if offset <? bufferSize - 256 then
        let s := frame_piece i (default 0 (frames !! Z.to_nat i)) in
        s ++ emitted n' (i + 1) frames bufferSize (offset + len s)
      else []
  end.

(** The pieces of all the frames of [l], numbered from [i]. *)
Fixpoint all_pieces (i : Z) (l : list Z) : list ascii :=
  match l with
  | [] => []
  | addr :: l' => frame_piece i addr ++ all_pieces (i + 1) l'
  end.

(** ** The signal handler *)

(** [sigaction(sig, &act, &old)]: [None] stands for a non-zero return, after
    which nothing has changed; otherwise the previous action is handed back. *)
Definition sigaction (sig : Z) (act : sigaction_t) (w : world)
  : option sigaction_t * world :=
  if sigaction_fails P sig then (None, w)
  else (Some (table_get (disposition w) sig),
        set_disposition (<[sig := act]> (disposition w)) w).

(** The conversion of the format string of the crash document. *)
Definition crash_text (signal : Z) (info : option siginfo_t) (faultAddress thread : Z)
    (stackTraceJson : list ascii) : list ascii :=
  T "{"
  ++ Q "signal" ++ T ":" ++ fmt_d signal ++ T ","
  ++ Q "signalName" ++ T ":" ++ [dq] ++ signalName signal ++ [dq] ++ T ","
  ++ Q "signalDescription" ++ T ":" ++ [dq] ++ signalDescription signal ++ [dq] ++ T ","
  ++ Q "faultAddress" ++ T ":" ++ [dq] ++ fmt_p faultAddress ++ [dq] ++ T ","
  ++ Q "threadId" ++ T ":" ++ fmt_lu thread ++ T ","
  ++ Q "siCode" ++ T ":" ++ fmt_d (match info with Some i => si_code i | None => 0 end) ++ T ","
  ++ Q "frames" ++ T ":" ++ cstring stackTraceJson
  ++ T "}".

(** [info] is [None] for a null pointer; the third argument of the C
    function, the [ucontext], is not used by it and is left out.  The
    callback is foreign code: its invocation is recorded with the document it
    is given, and what it does is not part of the model. *)
Definition signalHandler (signal : Z) (info : option siginfo_t) (d : delivery)
    (w : world) : world :=
  if negb (isHandlingCrash w =? 0) then w
  else
    let w := set_isHandlingCrash 1 w in
    let w := LOGE (T "Caught signal " ++ fmt_d signal ++ T " (" ++ signalName signal ++ T ")") w in
    let faultAddress := match info with Some i => si_addr i | None => 0 end in
    let '(frames, count) := captureStackTrace (unwound d) (stackFrames w) MAX_FRAMES in
    let w := set_stackFrameCount count (set_stackFrames frames w) in
    let stackTraceJson := fresh (resize (Z.to_nat 16384) NUL (junk d)) in
    let '(stackTraceJson, _) :=
      formatStackTraceJson stackTraceJson 16384 (cells (stackFrames w)) (stackFrameCount w) in
    let w := set_clobbered (clobbered w ++ spill stackTraceJson) w in
    let thread := self d in
    let '(json, _) :=
      snprintf (crashJsonBuffer w) 0 32768
        (crash_text signal info faultAddress thread (cells stackTraceJson)) in
    let w := set_crashJsonBuffer json w in
    let w := if negb (crashCallback w =? 0)
             then emit (Callback (crashCallback w) (cstring (cells (crashJsonBuffer w)))) w
             else w in
    let previousHandler := table_get (previousHandlers w) signal in
    let '(_, w) := sigaction signal previousHandler w in
    emit (Raise signal (table_get (disposition w) signal)) w.

(** ** Public API *)

Definition MoonForge_Android_SetJavaVM (vm : Z) (w : world) : world :=
  set_javaVM vm w.

Definition kSignalsToHandle : list Z :=
  [SIGABRT P; SIGBUS P; SIGFPE P; SIGILL P; SIGSEGV P; SIGTRAP P; SIGPIPE P].

Definition kNumSignals : Z := len kSignalsToHandle.

Definition engine_action : sigaction_t :=
  {| sa_handler := fn_signalHandler;
     sa_flags := Z.lor (SA_SIGINFO P) (SA_ONSTACK P);
     sa_mask := 0 |}.

(** One turn of the installing loop of
    [MoonForge_Android_InitializeCrashHandler]. *)
Definition install_handler (sig : Z) (w : world) : world :=
  let action := engine_action in
  match sigaction sig action w with
  | (Some old, w) => set_previousHandlers (<[sig := old]> (previousHandlers w)) w
  | (None, w) => LOGE (T "Failed to install handler for signal " ++ fmt_d sig) w
  end.

(** The loop itself, over the elements of [kSignalsToHandle] in order. *)
Fixpoint install_handlers (sigs : list Z) (w : world) : world :=
  match sigs with
  | [] => w
  | sig :: rest => install_handlers rest (install_handler sig w)
  end.

(** [malloced] is what [malloc(SIGSTKSZ)] returns at this call, 0 for
    [NULL]; the [JNIEnv*] argument is not used by the function and is left
    out. *)
Definition MoonForge_Android_InitializeCrashHandler (callback : Z) (malloced : Z)
    (w : world) : world :=
  if negb (isInitialized w =? 0) then LOGD (T "Crash handler already initialized") w
  else
    let w := set_crashCallback callback w in
    let w := install_handlers kSignalsToHandle w in
    let w := if negb (malloced =? 0) then set_heap (heap w ++ [(malloced, SIGSTKSZ P)]) w else w in
    let w := if negb (malloced =? 0)
             then set_altstack (Some {| ss_sp := malloced; ss_flags := 0; ss_size := SIGSTKSZ P |}) w
             else w in
    let w := set_isInitialized 1 w in
    LOGD (T "Crash handler initialized") w.

(** One turn of the restoring loop of
    [MoonForge_Android_ShutdownCrashHandler], and the loop. *)
Definition restore_handler (sig : Z) (w : world) : world :=
  (sigaction sig (table_get (previousHandlers w) sig) w).2.

Fixpoint restore_handlers (sigs : list Z) (w : world) : world :=
  match sigs with
  | [] => w
  | sig :: rest => restore_handlers rest (restore_handler sig w)
  end.

Definition MoonForge_Android_ShutdownCrashHandler (w : world) : world :=
  if isInitialized w =? 0 then w
  else
    let w := restore_handlers kSignalsToHandle w in
    let w := set_crashCallback 0 w in
    let w := set_isInitialized 0 w in
    LOGD (T "Crash handler shutdown") w.

Definition MoonForge_Android_IsInitialized (w : world) : Z := isInitialized w.

(** ** The kernel's side of a delivery *)

(** What a signal meets when the kernel delivers it: the engine's handler,
    run on the world as it is, or something that is not this unit's. *)
Inductive dispatch :=
  | runs_engine (after : world)
  | default_action
  | ignored
  | runs_other (addr : Z).

(** The kernel looks up the action installed for [sig] and calls its
    handler. *)
Definition deliver (sig : Z) (info : option siginfo_t) (d : delivery) (w : world)
  : dispatch :=
  match sa_handler (table_get (disposition w) sig) with
  | fn_signalHandler => runs_engine (signalHandler sig info d w)
  | SIG_DFL => default_action
  | SIG_IGN => ignored
  | fn_other addr => runs_other addr
  end.


End Engine.

(** ** JNI entry points *)

(** [JNI_VERSION_1_6] of [jni.h]. *)
Definition JNI_VERSION_1_6 : Z := 0x00010006.

(** The [JNIEnv*] and [jobject] arguments are used by none of the entry
    points and are left out. *)
Definition Java_com_moonforge_errortracking_CrashHandler_nativeInit (w : world) : world :=
  LOGD (T "Native init called from Java") w.

Definition Java_com_moonforge_errortracking_CrashHandler_nativeShutdown
    (P : platform) (w : world) : world :=
  MoonForge_Android_ShutdownCrashHandler P w.

(** What [nativeSimulateCrash] does to provoke a signal: a store through a
    pointer (the address and the value stored), or a call of [abort].  Which
    signal the platform answers with is not decided here. *)
Inductive provocation :=
  | store_int (addr value : Z)
  | store_char (addr value : Z)
  | call_abort.

(** [NDEBUG] tells whether the unit was compiled with the macro defined. *)
Definition Java_com_moonforge_errortracking_CrashHandler_nativeSimulateCrash
    (NDEBUG : bool) (crashType : Z) (w : world) : world * option provocation :=
  if negb NDEBUG then
    let w := LOGD (T "Simulating crash type " ++ fmt_d crashType) w in
    if crashType =? 0 then (w, Some (store_int 0 42))
    else if crashType =? 1 then (w, Some call_abort)
    else if crashType =? 2 then (w, Some (store_char 1 42))
    else (LOGE (T "Unknown crash type: " ++ fmt_d crashType) w, None)
  else (LOGD (T "SimulateCrash is only available in debug builds") w, None).

Definition JNI_OnLoad (vm : Z) (w : world) : world * Z :=
  let w := set_javaVM vm w in
  let w := LOGD (T "JNI_OnLoad: JavaVM set") w in
  (w, JNI_VERSION_1_6).

(** ** Sequences of calls *)

(** What can happen to the unit in the life of a process: a call of its
    public API, or the kernel running its handler. *)
Inductive call :=
  | SetJavaVM (vm : Z)
  | Initialize (callback malloced : Z)
  | Shutdown
  | Deliver (signal : Z) (info : option siginfo_t) (d : delivery).

Definition step (P : platform) (c : call) (w : world) : world :=
  match c with
  | SetJavaVM vm => MoonForge_Android_SetJavaVM vm w
  | Initialize callback malloced => MoonForge_Android_InitializeCrashHandler P callback malloced w
  | Shutdown => MoonForge_Android_ShutdownCrashHandler P w
  | Deliver signal info d => signalHandler P signal info d w
  end.

Fixpoint run (P : platform) (cs : list call) (w : world) : world :=
  match cs with
  | [] => w
  | c :: cs' => run P cs' (step P c w)
  end.

(** How many times a trace shows the callback being entered. *)
Fixpoint invocations (tr : list event) : nat :=
  match tr with
  | [] => O
  | Callback _ _ :: tr' => S (invocations tr')
  | _ :: tr' => invocations tr'
  end.

(** Fields a step leaves alone, bundled so that loops can carry them. *)
Definition same_engine (w w' : world) : Prop :=
  crashCallback w' = crashCallback w /\ isHandlingCrash w' = isHandlingCrash w
  /\ isInitialized w' = isInitialized w /\ javaVM w' = javaVM w
  /\ crashJsonBuffer w' = crashJsonBuffer w /\ stackFrames w' = stackFrames w
  /\ stackFrameCount w' = stackFrameCount w /\ altstack w' = altstack w
  /\ heap w' = heap w /\ clobbered w' = clobbered w
  /\ invocations (trace w') = invocations (trace w).

(** The document the handler leaves in [crashJsonBuffer] when it passes the
    guard in [w]. *)
Definition report (P : platform) (signal : Z) (info : option siginfo_t) (d : delivery) (w : world)
  : list ascii :=
  cstring (cells (crashJsonBuffer (signalHandler P signal info d w))).

(** The instruction pointers the unwinder's callback keeps: those that are
    not null. *)
Definition frames_seen (chain : list Z) : list Z :=
  List.filter (fun pc => negb (pc =? 0)) chain.

(** ** A concrete platform *)

(** Signal numbers, flags and [SIGSTKSZ] as the Linux headers give them for
    64-bit ARM, with a small symbol table for [dladdr]. *)
Definition libil2cpp : Dl_info :=
  {| dli_fname := Some (T "/data/app/com.example.game/lib/arm64/libil2cpp.so");
     dli_fbase := 0x7000000000;
     dli_sname := Some (T "il2cpp_runtime_invoke");
     dli_saddr := 0x7000001000 |}.

Definition stripped : Dl_info :=
  {| dli_fname := Some (T "libunity.so");
     dli_fbase := 0x7100000000;
     dli_sname := None;
     dli_saddr := 0 |}.

Definition arm64 : platform :=
  {| SIGABRT := 6; SIGBUS := 7; SIGFPE := 8; SIGILL := 4; SIGSEGV := 11;
     SIGTRAP := 5; SIGPIPE := 13;
     SA_SIGINFO := 4; SA_ONSTACK := 0x08000000; SIGSTKSZ := 16384;
     SIZE_MODULUS := 2 ^ 64;
     dladdr := fun a =>
       if (0x7000001000 <=? a) && (a <? 0x7000002000) then Some libil2cpp
       else if (0x7100000000 <=? a) && (a <? 0x7100100000) then Some stripped
       else None;
     sigaction_fails := fun _ => false |}.

(** The same platform with one more entry in the symbol table, as far below
    its address as a symbol can be: the address is in the last page of the
    address space, the symbol in the second. *)
Definition vectors : Dl_info :=
  {| dli_fname := None;
     dli_fbase := 0;
     dli_sname := Some (T "vectors");
     dli_saddr := 0x1000 |}.

Definition arm64_whole_space : platform :=
  {| SIGABRT := 6; SIGBUS := 7; SIGFPE := 8; SIGILL := 4; SIGSEGV := 11;
     SIGTRAP := 5; SIGPIPE := 13;
     SA_SIGINFO := 4; SA_ONSTACK := 0x08000000; SIGSTKSZ := 16384;
     SIZE_MODULUS := 2 ^ 64;
     dladdr := fun a =>
       if a =? 0xfffffffffffff000 then Some vectors else dladdr arm64 a;
     sigaction_fails := fun _ => false |}.

(** The same platform, except that [sigaction] is refused for [SIGBUS]. *)
Definition arm64_no_sigbus : platform :=
  {| SIGABRT := 6; SIGBUS := 7; SIGFPE := 8; SIGILL := 4; SIGSEGV := 11;
     SIGTRAP := 5; SIGPIPE := 13;
     SA_SIGINFO := 4; SA_ONSTACK := 0x08000000; SIGSTKSZ := 16384;
     SIZE_MODULUS := 2 ^ 64;
     dladdr := dladdr arm64;
     sigaction_fails := fun sig => sig =? 7 |}.

(** A process whose crashing code lives in one function with a C++ symbol
    of 189 characters, as mangled template instantiations readily are. *)
Definition long_symbol : list ascii :=
  T "_ZN" ++ replicate 184 "x"%char ++ T "Ev".

Definition arm64_long_symbols : platform :=
  {| SIGABRT := 6; SIGBUS := 7; SIGFPE := 8; SIGILL := 4; SIGSEGV := 11;
     SIGTRAP := 5; SIGPIPE := 13;
     SA_SIGINFO := 4; SA_ONSTACK := 0x08000000; SIGSTKSZ := 16384;
     SIZE_MODULUS := 2 ^ 64;
     dladdr := fun a =>
       if (0x7000001000 <=? a) && (a <? 0x7000002000)
       then Some {| dli_fname := Some (T "/data/app/com.example.game/lib/arm64/libil2cpp.so");
                    dli_fbase := 0x7000000000;
                    dli_sname := Some long_symbol;
                    dli_saddr := 0x7000001000 |}
       else None;
     sigaction_fails := fun _ => false |}.

(** That function recursing 64 deep when the signal arrives. *)
Definition deep_recursion : delivery :=
  {| unwound := replicate 64 0x7000001234; self := 4242; junk := [] |}.

(** An ordinary delivery: the walk visits four frames, the second with a
    null instruction pointer. *)
Definition quiet : delivery :=
  {| unwound := [0x7000001234; 0; 0x7100000040; 0x10]; self := 4242; junk := [] |}.

Definition segv_at_null : siginfo_t := {| si_signo := 11; si_code := 1; si_addr := 0 |}.

(** A process in which some other library had installed its own [SIGSEGV]
    handler before the engine was loaded. *)
Definition chained_boot : world :=
  boot (<[11 := {| sa_handler := fn_other 0x7200000100; sa_flags := 4; sa_mask := 0 |}]> ∅).

Definition armed : world :=
  MoonForge_Android_InitializeCrashHandler arm64 77 0x7300000000 chained_boot.

Definition crashed : world :=
  signalHandler arm64 11 (Some segv_at_null) quiet armed.

(** What may follow the first crash in a process that survives it. *)
Definition aftermath : list call :=
  [Deliver 7 None quiet; Shutdown; Initialize 88 0;
   Deliver 13 (Some segv_at_null) quiet].

Definition rearmed : world :=
  MoonForge_Android_InitializeCrashHandler arm64 88 0x7400000000 armed.

Definition disarmed : world :=
  MoonForge_Android_ShutdownCrashHandler arm64 armed.

(** Initialisation where [sigaction] is refused for [SIGBUS], and where
    [malloc] returns the null pointer. *)
Definition armed_without_sigbus : world :=
  MoonForge_Android_InitializeCrashHandler arm64_no_sigbus 77 0x7300000000 chained_boot.


(** Three frames: one with symbol and module, one unknown to [dladdr], one
    with a module only. *)
Definition mixed_frames : list Z := [0x7000001234; 0x10; 0x7100000040].

(** The static arrays as a process should always find them: their extents
    as declared, nothing stored outside them, a terminated string in
    [crashJsonBuffer], and a frame count within the frame array. *)
Definition arrays_intact (w : world) : Prop :=
  len (cells (crashJsonBuffer w)) = 32768
  /\ spill (crashJsonBuffer w) = []
  /\ len (cstring (cells (crashJsonBuffer w))) < 32768
  /\ len (cells (stackFrames w)) = MAX_FRAMES
  /\ spill (stackFrames w) = []
  /\ 0 <= stackFrameCount w <= MAX_FRAMES.

(** An array of 260 bytes, too short for one frame with the long symbol. *)
Definition short_cells : list ascii := replicate (Z.to_nat 260) NUL.

Definition armed_long_symbols : world :=
  MoonForge_Android_InitializeCrashHandler arm64_long_symbols 77 0x7300000000 (boot ∅).

(** * Properties *)

(** Reduce projections of updated worlds and nothing else. *)
Ltac wsimpl :=
  cbn [previousHandlers crashCallback isHandlingCrash isInitialized javaVM
       crashJsonBuffer stackFrames stackFrameCount disposition altstack
       heap clobbered trace set_previousHandlers set_crashCallback
       set_isHandlingCrash set_isInitialized set_javaVM set_crashJsonBuffer
       set_stackFrames set_stackFrameCount set_disposition set_altstack
       set_heap set_clobbered set_trace
       emit LOGE LOGD fst snd negb] in *.

Section Properties.

Context (P : platform).

(** ** The installing and restoring loops *)

Lemma invocations_app tr1 tr2 :
  invocations (tr1 ++ tr2) = (invocations tr1 + invocations tr2)%nat.
Proof.
  induction tr1 as [|e tr1 IH]; simpl; [reflexivity|].
  destruct e; simpl; rewrite IH; reflexivity.
Qed.

Lemma same_engine_refl w : same_engine w w.
Proof. repeat split. Qed.

Lemma same_engine_trans w1 w2 w3 :
  same_engine w1 w2 -> same_engine w2 w3 -> same_engine w1 w3.
Proof.
  unfold same_engine. intros H1 H2.
  repeat match goal with H : _ /\ _ |- _ => destruct H end.
  repeat split; congruence.
Qed.

Lemma install_handler_frame sig w : same_engine w (install_handler P sig w).
Proof.
  unfold same_engine, install_handler, sigaction.
  destruct (sigaction_fails P sig); wsimpl; repeat split.
  rewrite invocations_app; simpl; lia.
Qed.

Lemma install_handlers_frame sigs w : same_engine w (install_handlers P sigs w).
Proof.
  revert w; induction sigs as [|sig rest IH]; intros w; simpl.
  - apply same_engine_refl.
  - eapply same_engine_trans; [apply install_handler_frame | apply IH].
Qed.

Lemma restore_handler_frame sig w :
  same_engine w (restore_handler P sig w)
  /\ previousHandlers (restore_handler P sig w) = previousHandlers w
  /\ trace (restore_handler P sig w) = trace w.
Proof.
  unfold same_engine, restore_handler, sigaction.
  destruct (sigaction_fails P sig); wsimpl; repeat split.
Qed.

Lemma restore_handlers_frame sigs w :
  same_engine w (restore_handlers P sigs w)
  /\ previousHandlers (restore_handlers P sigs w) = previousHandlers w
  /\ trace (restore_handlers P sigs w) = trace w.
Proof.
  revert w; induction sigs as [|sig rest IH]; intros w; simpl.
  - repeat split.
  - destruct (restore_handler_frame sig w) as (F & Hp & Ht).
    destruct (IH (restore_handler P sig w)) as (F' & Hp' & Ht').
    split; [eapply same_engine_trans; eassumption|].
    split; congruence.
Qed.

Lemma sigaction_disposition sig act w :
  disposition (sigaction P sig act w).2 =
    if sigaction_fails P sig then disposition w else <[sig := act]> (disposition w).
Proof. unfold sigaction. destruct (sigaction_fails P sig); reflexivity. Qed.

Lemma elem_of_head (s : Z) rest : s ∈ s :: rest.
Proof. apply elem_of_cons; left; reflexivity. Qed.

Lemma bool_decide_tail (sig s : Z) rest :
  sig <> s -> bool_decide (sig ∈ s :: rest) = bool_decide (sig ∈ rest).
Proof.
  intros Hne. apply bool_decide_ext. rewrite elem_of_cons. tauto.
Qed.

Lemma install_handler_disposition sig w :
  disposition (install_handler P sig w) =
    if sigaction_fails P sig then disposition w
    else <[sig := engine_action P]> (disposition w).
Proof.
  unfold install_handler, sigaction.
  destruct (sigaction_fails P sig); reflexivity.
Qed.

Lemma install_handler_previous sig w :
  previousHandlers (install_handler P sig w) =
    if sigaction_fails P sig then previousHandlers w
    else <[sig := table_get (disposition w) sig]> (previousHandlers w).
Proof.
  unfold install_handler, sigaction.
  destruct (sigaction_fails P sig); reflexivity.
Qed.

Lemma install_handler_trace sig w :
  trace (install_handler P sig w) =
    if sigaction_fails P sig
    then trace w ++ [Logcat ANDROID_LOG_ERROR LOG_TAG
                       (T "Failed to install handler for signal " ++ fmt_d sig)]
    else trace w.
Proof.
  unfold install_handler, sigaction.
  destruct (sigaction_fails P sig); reflexivity.
Qed.

Lemma install_handlers_disposition sigs w (sig : Z) :
  disposition (install_handlers P sigs w) !! sig =
    if bool_decide (sig ∈ sigs) && negb (sigaction_fails P sig)
    then Some (engine_action P) else disposition w !! sig.
Proof.
  revert w; induction sigs as [|s rest IH]; intros w; simpl.
  - reflexivity.
  - rewrite IH, install_handler_disposition.
    destruct (decide (sig = s)) as [->|Hne].
    + rewrite (bool_decide_eq_true_2 (s ∈ s :: rest)) by apply elem_of_head.
      destruct (sigaction_fails P s); simpl.
      * rewrite andb_false_r. reflexivity.
      * rewrite andb_true_r, lookup_insert_eq. destruct (bool_decide _); reflexivity.
    + rewrite (bool_decide_tail sig s rest Hne).
      destruct (bool_decide (sig ∈ rest) && negb (sigaction_fails P sig)); [reflexivity|].
      destruct (sigaction_fails P s); [reflexivity|].
      apply lookup_insert_ne; congruence.
Qed.

Lemma install_handlers_previous sigs w (sig : Z) :
  NoDup sigs ->
  previousHandlers (install_handlers P sigs w) !! sig =
    if bool_decide (sig ∈ sigs) && negb (sigaction_fails P sig)
    then Some (table_get (disposition w) sig) else previousHandlers w !! sig.
Proof.
  intros Hnd; revert w; induction Hnd as [|s rest Hs Hnd IH]; intros w; simpl.
  - reflexivity.
  - rewrite IH, install_handler_previous.
    destruct (decide (sig = s)) as [->|Hne].
    + rewrite (bool_decide_eq_true_2 (s ∈ s :: rest)) by apply elem_of_head.
      rewrite (bool_decide_eq_false_2 (s ∈ rest)) by assumption. simpl.
      destruct (sigaction_fails P s); simpl; [reflexivity|].
      apply lookup_insert_eq.
    + rewrite (bool_decide_tail sig s rest Hne).
      destruct (bool_decide (sig ∈ rest) && negb (sigaction_fails P sig)).
      * unfold table_get. rewrite install_handler_disposition.
        destruct (sigaction_fails P s); [reflexivity|].
        rewrite lookup_insert_ne by congruence. reflexivity.
      * destruct (sigaction_fails P s); [reflexivity|].
        apply lookup_insert_ne; congruence.
Qed.

Lemma install_handlers_trace_mono sigs w e :
  e ∈ trace w -> e ∈ trace (install_handlers P sigs w).
Proof.
  revert w; induction sigs as [|s rest IH]; intros w He; simpl; [assumption|].
  apply IH. rewrite install_handler_trace.
  destruct (sigaction_fails P s); [apply elem_of_app; left|]; assumption.
Qed.

Lemma install_handlers_failure_logged sigs w (sig : Z) :
  sig ∈ sigs -> sigaction_fails P sig = true ->
  Logcat ANDROID_LOG_ERROR LOG_TAG
    (T "Failed to install handler for signal " ++ fmt_d sig)
  ∈ trace (install_handlers P sigs w).
Proof.
  revert w; induction sigs as [|s rest IH]; intros w Hin Hf; simpl.
  - apply elem_of_nil in Hin; contradiction.
  - destruct (decide (sig = s)) as [->|Hne].
    + apply install_handlers_trace_mono. rewrite install_handler_trace, Hf.
      apply elem_of_app; right. apply list_elem_of_singleton. reflexivity.
    + apply IH; [|assumption].
      apply elem_of_cons in Hin as [?|?]; [contradiction|assumption].
Qed.

Lemma restore_handlers_disposition sigs w (sig : Z) :
  disposition (restore_handlers P sigs w) !! sig =
    if bool_decide (sig ∈ sigs) && negb (sigaction_fails P sig)
    then Some (table_get (previousHandlers w) sig) else disposition w !! sig.
Proof.
  revert w; induction sigs as [|s rest IH]; intros w; simpl.
  - reflexivity.
  - rewrite IH.
    destruct (restore_handler_frame s w) as (_ & -> & _).
    unfold restore_handler. rewrite sigaction_disposition.
    destruct (decide (sig = s)) as [->|Hne].
    + rewrite (bool_decide_eq_true_2 (s ∈ s :: rest)) by apply elem_of_head.
      destruct (sigaction_fails P s); simpl.
      * rewrite andb_false_r. reflexivity.
      * rewrite andb_true_r, lookup_insert_eq. destruct (bool_decide _); reflexivity.
    + rewrite (bool_decide_tail sig s rest Hne).
      destruct (bool_decide (sig ∈ rest) && negb (sigaction_fails P sig)); [reflexivity|].
      destruct (sigaction_fails P s); [reflexivity|].
      apply lookup_insert_ne; congruence.
Qed.

(** ** The handler, field by field *)

Lemma signalHandler_guarded signal info d w :
  isHandlingCrash w <> 0 -> signalHandler P signal info d w = w.
Proof.
  intros H. unfold signalHandler.
  destruct (isHandlingCrash w =? 0) eqn:E; [apply Z.eqb_eq in E; contradiction|].
  reflexivity.
Qed.

Lemma signalHandler_passes signal info d w :
  isHandlingCrash w = 0 ->
  let w' := signalHandler P signal info d w in
  isHandlingCrash w' = 1
  /\ previousHandlers w' = previousHandlers w
  /\ crashCallback w' = crashCallback w
  /\ isInitialized w' = isInitialized w
  /\ disposition w' =
       (if sigaction_fails P signal then disposition w
        else <[signal := table_get (previousHandlers w) signal]> (disposition w))
  /\ trace w' =
       trace w
       ++ [Logcat ANDROID_LOG_ERROR LOG_TAG
             (T "Caught signal " ++ fmt_d signal ++ T " (" ++ signalName P signal ++ T ")")]
       ++ (if crashCallback w =? 0 then []
           else [Callback (crashCallback w) (report P signal info d w)])
       ++ [Raise signal (table_get (disposition w') signal)].
Proof.
  intros H. unfold report. unfold signalHandler.
  rewrite H. change (negb (0 =? 0)) with false. cbv iota.
  wsimpl.
  destruct (captureStackTrace _ _ _) as [frames count]. wsimpl.
  destruct (formatStackTraceJson _ _ _ _ _) as [stj off]. wsimpl.
  destruct (snprintf _ _ _ _) as [json r]. wsimpl.
  unfold sigaction.
  destruct (crashCallback w =? 0), (sigaction_fails P signal); wsimpl;
    rewrite <- ?app_assoc; repeat split.
Qed.

(** ** Initialisation from the uninitialised state *)

Lemma initialize_fresh callback malloced w :
  isInitialized w = 0 ->
  let w' := MoonForge_Android_InitializeCrashHandler P callback malloced w in
  let w1 := install_handlers P (kSignalsToHandle P) (set_crashCallback callback w) in
  isInitialized w' = 1
  /\ crashCallback w' = callback
  /\ isHandlingCrash w' = isHandlingCrash w
  /\ disposition w' = disposition w1
  /\ previousHandlers w' = previousHandlers w1
  /\ trace w' = trace w1 ++ [Logcat ANDROID_LOG_DEBUG LOG_TAG (T "Crash handler initialized")]
  /\ altstack w' =
       (if malloced =? 0 then altstack w
        else Some {| ss_sp := malloced; ss_flags := 0; ss_size := SIGSTKSZ P |})
  /\ heap w' = (if malloced =? 0 then heap w else heap w ++ [(malloced, SIGSTKSZ P)]).
Proof.
  intros H. unfold MoonForge_Android_InitializeCrashHandler.
  rewrite H. change (negb (0 =? 0)) with false. cbv iota.
  pose proof (install_handlers_frame (kSignalsToHandle P) (set_crashCallback callback w)) as F.
  unfold same_engine in F. wsimpl.
  destruct F as (Hcb & Hh & _ & _ & _ & _ & _ & Ha & Hp & _).
  destruct (malloced =? 0); wsimpl; repeat split; try assumption.
  all: try (rewrite Hp; reflexivity).
Qed.

Lemma initialize_sets_initialized callback malloced w :
  isInitialized (MoonForge_Android_InitializeCrashHandler P callback malloced w) <> 0.
Proof.
  destruct (Z.eq_dec (isInitialized w) 0) as [H|H].
  - destruct (initialize_fresh callback malloced w H) as (-> & _). discriminate.
  - unfold MoonForge_Android_InitializeCrashHandler.
    destruct (isInitialized w =? 0) eqn:E; [apply Z.eqb_eq in E; contradiction|].
    exact H.
Qed.

(** What [initialize] installs for a signal of the set that [sigaction]
    accepts, field by field, and what the kernel then does with the signal. *)
Lemma initialize_installs callback malloced w (sig : Z) :
  isInitialized w = 0 -> sig ∈ kSignalsToHandle P -> sigaction_fails P sig = false ->
  let w' := MoonForge_Android_InitializeCrashHandler P callback malloced w in
  disposition w' !! sig
  = Some {| sa_handler := fn_signalHandler;
            sa_flags := Z.lor (SA_SIGINFO P) (SA_ONSTACK P);
            sa_mask := 0 |}
  /\ (forall info d, deliver P sig info d w' = runs_engine (signalHandler P sig info d w'))
  /\ (isHandlingCrash w = 0 -> callback <> 0 -> forall info d,
        Callback callback (report P sig info d w') ∈ trace (signalHandler P sig info d w')).
Proof.
  intros H Hin Hok.
  destruct (initialize_fresh callback malloced w H) as (_ & Hc & Hg & Hd & _).
  cbv zeta.
  assert (disposition (MoonForge_Android_InitializeCrashHandler P callback malloced w) !! sig
          = Some {| sa_handler := fn_signalHandler;
                    sa_flags := Z.lor (SA_SIGINFO P) (SA_ONSTACK P);
                    sa_mask := 0 |}) as Hs.
  { rewrite Hd, install_handlers_disposition.
    rewrite bool_decide_eq_true_2, Hok by assumption. reflexivity. }
  split; [exact Hs|]. split.
  - intros info d. unfold deliver, table_get. rewrite Hs. reflexivity.
  - intros Hg0 Hne info d. rewrite Hg0 in Hg.
    destruct (signalHandler_passes sig info d _ Hg) as (_ & _ & _ & _ & _ & ->).
    rewrite Hc. apply Z.eqb_neq in Hne. rewrite Hne.
    rewrite !elem_of_app. right. right. left. apply list_elem_of_singleton. reflexivity.
Qed.

(** A difference inside the range of [ptrdiff_t] is represented as itself. *)
Lemma ptrdiff_t_id z :
  - (SIZE_MODULUS P / 2) <= z < SIZE_MODULUS P / 2 -> ptrdiff_t P z = z.
Proof.
  intros H. unfold ptrdiff_t.
  assert (2 * (SIZE_MODULUS P / 2) <= SIZE_MODULUS P) by (apply Z.mul_div_le; lia).
  rewrite Z.mod_small by lia. lia.
Qed.

(** One in the upper half of [size_t]'s range is represented as a negative
    number. *)
Lemma ptrdiff_t_wraps z :
  SIZE_MODULUS P mod 2 = 0 -> SIZE_MODULUS P / 2 <= z < SIZE_MODULUS P ->
  ptrdiff_t P z = z - SIZE_MODULUS P.
Proof.
  intros Heven H. unfold ptrdiff_t.
  pose proof (Z.div_mod (SIZE_MODULUS P) 2 ltac:(discriminate)) as Hh.
  rewrite Heven in Hh.
  replace (z + SIZE_MODULUS P / 2)
    with (z - SIZE_MODULUS P / 2 + 1 * SIZE_MODULUS P) by lia.
  rewrite Z.mod_add by lia. rewrite Z.mod_small by lia. lia.
Qed.



(** ** Initialise and shut down *)

(** C5.  While the engine is initialised, [initialize] changes nothing: the
    table of saved dispositions, the callback, the installed dispositions
    and every other static are as before, and the only effect is the debug
    line saying that the handler was already initialised. *)
Theorem initialize_twice_is_noop (callback malloced : Z) (w : world) :
  isInitialized w <> 0 ->
  let w' := MoonForge_Android_InitializeCrashHandler P callback malloced w in
  previousHandlers w' = previousHandlers w
  /\ crashCallback w' = crashCallback w
  /\ disposition w' = disposition w
  /\ isHandlingCrash w' = isHandlingCrash w
  /\ isInitialized w' = isInitialized w
  /\ javaVM w' = javaVM w
  /\ crashJsonBuffer w' = crashJsonBuffer w
  /\ stackFrames w' = stackFrames w
  /\ stackFrameCount w' = stackFrameCount w
  /\ altstack w' = altstack w
  /\ heap w' = heap w
  /\ clobbered w' = clobbered w
  /\ trace w' = trace w ++ [Logcat ANDROID_LOG_DEBUG LOG_TAG
                              (T "Crash handler already initialized")].
Proof.
  intros H. unfold MoonForge_Android_InitializeCrashHandler.
  destruct (isInitialized w =? 0) eqn:E; [apply Z.eqb_eq in E; contradiction|].
  wsimpl. repeat split.
Qed.

(** C6.  From an initialised engine, [shutdown] puts back, for every signal
    of the handled set that [sigaction] accepts, the entry saved for it in
    [previousHandlers]; it touches no other signal, keeps the table, clears
    the callback and the initialised flag, and from then on a run of the
    handler, for any signal, enters no callback.  From an engine that is not
    initialised, [shutdown] returns the world it was given. *)
Theorem shutdown_restores_and_clears (w : world) :
  (isInitialized w <> 0 ->
   let w' := MoonForge_Android_ShutdownCrashHandler P w in
   (forall sig : Z, sig ∈ kSignalsToHandle P -> sigaction_fails P sig = false ->
      disposition w' !! sig = Some (table_get (previousHandlers w) sig))
   /\ (forall sig : Z, sig ∉ kSignalsToHandle P -> disposition w' !! sig = disposition w !! sig)
   /\ previousHandlers w' = previousHandlers w
   /\ crashCallback w' = 0
   /\ isInitialized w' = 0
   /\ MoonForge_Android_IsInitialized w' = 0
   /\ (forall signal info d,
        invocations (trace (signalHandler P signal info d w')) = invocations (trace w')))
  /\ (isInitialized w = 0 -> MoonForge_Android_ShutdownCrashHandler P w = w).
Proof.
  split; intros H; unfold MoonForge_Android_ShutdownCrashHandler, MoonForge_Android_IsInitialized.
  - destruct (isInitialized w =? 0) eqn:E; [apply Z.eqb_eq in E; contradiction|].
    destruct (restore_handlers_frame (kSignalsToHandle P) w) as (F & Hp & Ht).
    wsimpl. repeat split; try assumption.
    + intros sig Hin Hok. rewrite restore_handlers_disposition.
      rewrite bool_decide_eq_true_2, Hok by assumption. reflexivity.
    + intros sig Hin. rewrite restore_handlers_disposition.
      rewrite bool_decide_eq_false_2 by assumption. reflexivity.
    + intros signal info d.
      match goal with |- context [signalHandler P signal info d ?x] => set (w1 := x) end.
      destruct (Z.eq_dec (isHandlingCrash w1) 0) as [Hg|Hg].
      * destruct (signalHandler_passes signal info d w1 Hg) as (_ & _ & _ & _ & _ & ->).
        change (crashCallback w1) with 0. change (0 =? 0) with true. cbv iota.
        subst w1. wsimpl. rewrite !invocations_app. cbn [invocations]. lia.
      * rewrite signalHandler_guarded by assumption. reflexivity.
  - rewrite H. reflexivity.
Qed.

(** C8.  When [initialize] runs on an engine that is not initialised, every
    signal of the set for which [sigaction] succeeds ends up handled by this
    engine, whatever happened to the other signals: the action installed for
    it has [signalHandler] as its handler, with [SA_SIGINFO | SA_ONSTACK] and
    an empty mask, the kernel delivering the signal runs [signalHandler],
    and, the guard being clear, that run enters the registered callback.  A
    signal for which [sigaction] fails keeps its disposition and the failure
    is logged; and the engine reports itself initialised either way. *)
Theorem install_failure_is_per_signal (callback malloced : Z) (w : world) :
  isInitialized w = 0 ->
  let w' := MoonForge_Android_InitializeCrashHandler P callback malloced w in
  (forall sig : Z, sig ∈ kSignalsToHandle P -> sigaction_fails P sig = false ->
     disposition w' !! sig
     = Some {| sa_handler := fn_signalHandler;
               sa_flags := Z.lor (SA_SIGINFO P) (SA_ONSTACK P);
               sa_mask := 0 |}
     /\ (forall info d,
          deliver P sig info d w' = runs_engine (signalHandler P sig info d w'))
     /\ (isHandlingCrash w = 0 -> callback <> 0 -> forall info d,
          Callback callback (report P sig info d w')
          ∈ trace (signalHandler P sig info d w')))
  /\ (forall sig : Z, sig ∈ kSignalsToHandle P -> sigaction_fails P sig = true ->
       disposition w' !! sig = disposition w !! sig
       /\ Logcat ANDROID_LOG_ERROR LOG_TAG
            (T "Failed to install handler for signal " ++ fmt_d sig) ∈ trace w')
  /\ isInitialized w' = 1
  /\ MoonForge_Android_IsInitialized w' = 1.
Proof.
  intros H.
  destruct (initialize_fresh callback malloced w H) as (Hi & _ & _ & Hd & _ & Ht & _).
  unfold MoonForge_Android_IsInitialized.
  split; [|split; [|split; assumption]].
  - intros sig Hin Hok. exact (initialize_installs callback malloced w sig H Hin Hok).
  - intros sig Hin Hfail. split.
    + rewrite Hd, install_handlers_disposition.
      rewrite Hfail, andb_false_r. reflexivity.
    + rewrite Ht. apply elem_of_app; left.
      apply install_handlers_failure_logged; assumption.
Qed.

(** C10.  The signals [initialize] asks [sigaction] about are the seven of
    [kSignalsToHandle], [SIGPIPE] among them: for each of the seven that
    [sigaction] accepts the installed action has [signalHandler] as its
    handler and the kernel delivering the signal runs [signalHandler]; no
    other signal's disposition changes.  A [SIGPIPE] delivered first after
    [initialize] therefore runs the handler, which sets the guard, after
    which the handler does nothing for any signal. *)
Theorem handled_signals_are_the_seven :
  kSignalsToHandle P =
    [SIGABRT P; SIGBUS P; SIGFPE P; SIGILL P; SIGSEGV P; SIGTRAP P; SIGPIPE P]
  /\ kNumSignals P = 7
  /\ (forall callback malloced w (sig : Z), isInitialized w = 0 ->
       let w' := MoonForge_Android_InitializeCrashHandler P callback malloced w in
       (sig ∈ [SIGABRT P; SIGBUS P; SIGFPE P; SIGILL P; SIGSEGV P; SIGTRAP P; SIGPIPE P] ->
        sigaction_fails P sig = false ->
        disposition w' !! sig
        = Some {| sa_handler := fn_signalHandler;
                  sa_flags := Z.lor (SA_SIGINFO P) (SA_ONSTACK P);
                  sa_mask := 0 |}
        /\ forall info d,
             deliver P sig info d w' = runs_engine (signalHandler P sig info d w'))
       /\ (sig ∉ [SIGABRT P; SIGBUS P; SIGFPE P; SIGILL P; SIGSEGV P; SIGTRAP P; SIGPIPE P] ->
           disposition w' !! sig = disposition w !! sig))
  /\ (forall callback malloced info d w,
       isInitialized w = 0 -> isHandlingCrash w = 0 ->
       sigaction_fails P (SIGPIPE P) = false ->
       let w' := MoonForge_Android_InitializeCrashHandler P callback malloced w in
       exists w1,
         deliver P (SIGPIPE P) info d w' = runs_engine w1
         /\ isHandlingCrash w1 = 1
         /\ forall signal info' d', signalHandler P signal info' d' w1 = w1)
  /\ (forall info d w, isHandlingCrash w = 0 ->
       let w1 := signalHandler P (SIGPIPE P) info d w in
       isHandlingCrash w1 = 1
       /\ forall signal info' d', signalHandler P signal info' d' w1 = w1).
Proof.
  assert (forall info d w, isHandlingCrash w = 0 ->
            let w1 := signalHandler P (SIGPIPE P) info d w in
            isHandlingCrash w1 = 1
            /\ forall signal info' d', signalHandler P signal info' d' w1 = w1) as Trip.
  { intros info d w H.
    destruct (signalHandler_passes (SIGPIPE P) info d w H) as (Hset & _).
    split; [exact Hset|].
    intros signal info' d'. apply signalHandler_guarded.
    rewrite Hset. discriminate. }
  split; [reflexivity|]. split; [reflexivity|]. split; [|split; [|exact Trip]].
  - intros callback malloced w sig H. cbv zeta. split.
    + intros Hin Hok.
      destruct (initialize_installs callback malloced w sig H Hin Hok) as (Hs & Hdel & _).
      split; assumption.
    + intros Hout.
      destruct (initialize_fresh callback malloced w H) as (_ & _ & _ & Hd & _).
      rewrite Hd, install_handlers_disposition.
      rewrite bool_decide_eq_false_2 by exact Hout. reflexivity.
  - intros callback malloced info d w Hi Hg Hok. cbv zeta.
    assert (SIGPIPE P ∈ kSignalsToHandle P) as Hin
      by (unfold kSignalsToHandle; rewrite !elem_of_cons; auto 10).
    destruct (initialize_installs callback malloced w (SIGPIPE P) Hi Hin Hok) as (_ & Hdel & _).
    destruct (initialize_fresh callback malloced w Hi) as (_ & _ & Hg1 & _).
    rewrite Hg in Hg1.
    eexists. split; [apply Hdel|]. apply Trip. exact Hg1.
Qed.

(** ** The reentrancy guard over whole runs *)

Lemma step_keeps_flag c w :
  isHandlingCrash w <> 0 ->
  isHandlingCrash (step P c w) = isHandlingCrash w
  /\ crashJsonBuffer (step P c w) = crashJsonBuffer w
  /\ stackFrames (step P c w) = stackFrames w
  /\ invocations (trace (step P c w)) = invocations (trace w).
Proof.
  intros H. destruct c as [vm|callback malloced| |signal info d]; simpl.
  - repeat split.
  - unfold MoonForge_Android_InitializeCrashHandler.
    destruct (isInitialized w =? 0) eqn:E; wsimpl.
    + pose proof (install_handlers_frame (kSignalsToHandle P) (set_crashCallback callback w)) as F.
      unfold same_engine in F. wsimpl.
      destruct F as (_ & Hh & _ & _ & Hj & Hs & _ & _ & _ & _ & Hi).
      destruct (malloced =? 0); wsimpl; rewrite invocations_app; cbn [invocations];
        repeat split; try assumption; lia.
    + rewrite invocations_app; cbn [invocations]. repeat split. lia.
  - unfold MoonForge_Android_ShutdownCrashHandler.
    destruct (isInitialized w =? 0); [repeat split|].
    destruct (restore_handlers_frame (kSignalsToHandle P) w) as (F & _ & Ht).
    unfold same_engine in F.
    destruct F as (_ & Hh & _ & _ & Hj & Hs & _ & _ & _ & _ & Hi).
    wsimpl. rewrite invocations_app; cbn [invocations]. repeat split; try assumption; lia.
  - rewrite signalHandler_guarded by assumption. repeat split.
Qed.

Lemma step_invocations c w :
  (invocations (trace (step P c w)) <= invocations (trace w) + 1)%nat
  /\ (invocations (trace (step P c w)) <> invocations (trace w) ->
      isHandlingCrash w = 0 /\ isHandlingCrash (step P c w) = 1).
Proof.
  destruct (Z.eq_dec (isHandlingCrash w) 0) as [Hg|Hg].
  2: { destruct (step_keeps_flag c w Hg) as (_ & _ & _ & ->). split; [lia|congruence]. }
  destruct c as [vm|callback malloced| |signal info d]; simpl.
  - split; [lia|congruence].
  - assert (invocations (trace (MoonForge_Android_InitializeCrashHandler P callback malloced w))
            = invocations (trace w)) as ->; [|split; [lia|congruence]].
    unfold MoonForge_Android_InitializeCrashHandler.
    destruct (isInitialized w =? 0) eqn:E; wsimpl.
    + pose proof (install_handlers_frame (kSignalsToHandle P) (set_crashCallback callback w)) as F.
      unfold same_engine in F. wsimpl.
      destruct F as (_ & _ & _ & _ & _ & _ & _ & _ & _ & _ & Hi).
      destruct (malloced =? 0); wsimpl; rewrite invocations_app; cbn [invocations]; lia.
    + rewrite invocations_app; cbn [invocations]. lia.
  - assert (invocations (trace (MoonForge_Android_ShutdownCrashHandler P w))
            = invocations (trace w)) as ->; [|split; [lia|congruence]].
    unfold MoonForge_Android_ShutdownCrashHandler.
    destruct (isInitialized w =? 0); [reflexivity|].
    destruct (restore_handlers_frame (kSignalsToHandle P) w) as (_ & _ & Ht).
    wsimpl. rewrite invocations_app, Ht; cbn [invocations]. lia.
  - destruct (signalHandler_passes signal info d w Hg) as (Hset & _ & _ & _ & _ & ->).
    rewrite !invocations_app.
    destruct (crashCallback w =? 0); cbn [invocations]; split; try lia; intros _; auto.
Qed.

Lemma run_keeps_flag cs w :
  isHandlingCrash w <> 0 ->
  isHandlingCrash (run P cs w) = isHandlingCrash w
  /\ crashJsonBuffer (run P cs w) = crashJsonBuffer w
  /\ stackFrames (run P cs w) = stackFrames w
  /\ invocations (trace (run P cs w)) = invocations (trace w).
Proof.
  revert w; induction cs as [|c cs IH]; intros w H; simpl.
  - repeat split.
  - destruct (step_keeps_flag c w H) as (Hf & Hj & Hs & Hi).
    destruct (IH (step P c w)) as (Hf' & Hj' & Hs' & Hi'); [congruence|].
    repeat split; congruence.
Qed.

(** C1.  No call of the unit changes a guard flag that is set; the handler
    entered with the flag set returns the world untouched; the handler
    entered with the flag clear sets it.  So over any sequence of API calls
    and signal deliveries, once one delivery has passed the guard the report
    buffer and the frame array are never written again and the callback is
    never entered again, and a whole run enters the callback at most once. *)
Theorem reentrancy_flag_is_one_shot :
  (forall c w, isHandlingCrash w <> 0 ->
     isHandlingCrash (step P c w) = isHandlingCrash w)
  /\ (forall signal info d w, isHandlingCrash w <> 0 ->
       signalHandler P signal info d w = w)
  /\ (forall signal info d w, isHandlingCrash w = 0 ->
       isHandlingCrash (signalHandler P signal info d w) = 1)
  /\ (forall cs w, isHandlingCrash w <> 0 ->
       isHandlingCrash (run P cs w) = isHandlingCrash w
       /\ crashJsonBuffer (run P cs w) = crashJsonBuffer w
       /\ stackFrames (run P cs w) = stackFrames w
       /\ invocations (trace (run P cs w)) = invocations (trace w))
  /\ (forall cs w,
       (invocations (trace (run P cs w)) <= invocations (trace w) + 1)%nat).
Proof.
  split; [intros c w H; apply step_keeps_flag; assumption|].
  split; [intros; apply signalHandler_guarded; assumption|].
  split; [intros signal info d w H; apply signalHandler_passes; assumption|].
  split; [intros cs w H; apply run_keeps_flag; assumption|].
  induction cs as [|c cs IH]; intros w; simpl; [lia|].
  destruct (step_invocations c w) as (Hle & Hflag).
  destruct (Nat.eq_dec (invocations (trace (step P c w))) (invocations (trace w))) as [E|E].
  - rewrite <- E. apply IH.
  - destruct (Hflag E) as (_ & Hset).
    destruct (run_keeps_flag cs (step P c w)) as (_ & _ & _ & ->); [rewrite Hset; discriminate|].
    exact Hle.
Qed.

(** ** Delegation *)

(** C4.  A run of the handler that passes the guard, for a signal number
    [sigaction] accepts, leaves installed for that number the entry of
    [previousHandlers] for the same number and changes no other signal's
    disposition and no saved entry; its effects are, in order, the log line,
    the callback (when one is registered) on the finished report, and
    [raise] of the same number, made while the restored entry is the one
    installed.  When the engine was initialised from a world [w0] and the
    signal is one of the handled set, that entry is the disposition the
    signal had in [w0]. *)
Theorem handler_restores_saved_then_reraises :
  (forall signal info d w,
     isHandlingCrash w = 0 -> sigaction_fails P signal = false ->
     let w' := signalHandler P signal info d w in
     disposition w' !! signal = Some (table_get (previousHandlers w) signal)
     /\ (forall s : Z, s <> signal -> disposition w' !! s = disposition w !! s)
     /\ previousHandlers w' = previousHandlers w
     /\ trace w' =
          trace w
          ++ [Logcat ANDROID_LOG_ERROR LOG_TAG
                (T "Caught signal " ++ fmt_d signal ++ T " (" ++ signalName P signal ++ T ")")]
          ++ (if crashCallback w =? 0 then []
              else [Callback (crashCallback w) (report P signal info d w)])
          ++ [Raise signal (table_get (previousHandlers w) signal)])
  /\ (forall callback malloced signal info d w0,
       isInitialized w0 = 0 -> isHandlingCrash w0 = 0 ->
       NoDup (kSignalsToHandle P) ->
       signal ∈ kSignalsToHandle P -> sigaction_fails P signal = false ->
       let w1 := MoonForge_Android_InitializeCrashHandler P callback malloced w0 in
       let w2 := signalHandler P signal info d w1 in
       disposition w1 !! signal = Some (engine_action P)
       /\ table_get (disposition w2) signal = table_get (disposition w0) signal
       /\ last (trace w2) = Some (Raise signal (table_get (disposition w0) signal))).
Proof.
  assert (forall signal info d w,
     isHandlingCrash w = 0 -> sigaction_fails P signal = false ->
     let w' := signalHandler P signal info d w in
     disposition w' !! signal = Some (table_get (previousHandlers w) signal)
     /\ (forall s : Z, s <> signal -> disposition w' !! s = disposition w !! s)
     /\ previousHandlers w' = previousHandlers w
     /\ trace w' =
          trace w
          ++ [Logcat ANDROID_LOG_ERROR LOG_TAG
                (T "Caught signal " ++ fmt_d signal ++ T " (" ++ signalName P signal ++ T ")")]
          ++ (if crashCallback w =? 0 then []
              else [Callback (crashCallback w) (report P signal info d w)])
          ++ [Raise signal (table_get (previousHandlers w) signal)]) as General.
  { intros signal info d w Hg Hok.
    destruct (signalHandler_passes signal info d w Hg) as (_ & Hp & _ & _ & Hd & Ht).
    rewrite Hok in Hd. cbv zeta.
    assert (disposition (signalHandler P signal info d w) !! signal
            = Some (table_get (previousHandlers w) signal)) as Hs
      by (rewrite Hd; apply lookup_insert_eq).
    split; [exact Hs|].
    split; [intros s Hne; rewrite Hd; apply lookup_insert_ne; congruence|].
    split; [exact Hp|].
    rewrite Ht. unfold table_get at 1. rewrite Hs. reflexivity. }
  split; [exact General|].
  intros callback malloced signal info d w0 Hi Hg Hnd Hin Hok.
  destruct (initialize_fresh callback malloced w0 Hi) as (_ & _ & Hg1 & Hd1 & Hp1 & _).
  rewrite Hg in Hg1.
  destruct (General signal info d _ Hg1 Hok) as (Hs & _ & _ & Ht).
  assert (table_get (previousHandlers
            (MoonForge_Android_InitializeCrashHandler P callback malloced w0)) signal
          = table_get (disposition w0) signal) as Hsaved.
  { unfold table_get at 1. rewrite Hp1, install_handlers_previous by assumption.
    rewrite bool_decide_eq_true_2, Hok by assumption. reflexivity. }
  cbv zeta. split; [|split].
  - rewrite Hd1, install_handlers_disposition.
    rewrite bool_decide_eq_true_2, Hok by assumption. reflexivity.
  - unfold table_get at 1. rewrite Hs. exact Hsaved.
  - rewrite Ht, !app_assoc, last_snoc, Hsaved. reflexivity.
Qed.

(** ** The alternate stack *)


(** ** Stores into arrays *)

Lemma store_in_place {A} (pre : list A) (y : A) (rest : list A) sp (p : Z) (x : A) :
  p = len pre ->
  store {| cells := pre ++ y :: rest; spill := sp |} p x
  = {| cells := pre ++ x :: rest; spill := sp |}.
Proof.
  intros ->. unfold store, len. cbn [cells spill].
  rewrite length_app. cbn [length].
  destruct (0 <=? Z.of_nat (length pre)) eqn:E1; [|apply Z.leb_gt in E1; lia].
  destruct (Z.of_nat (length pre) <? Z.of_nat (length pre + S (length rest))) eqn:E2;
    [|apply Z.ltb_ge in E2; lia].
  cbn [andb]. rewrite Nat2Z.id.
  rewrite insert_app_r_alt by lia. rewrite Nat.sub_diag. reflexivity.
Qed.

Lemma store_bytes_in_place {A} (s old pre rest : list A) sp (p : Z) :
  length old = length s -> p = len pre ->
  store_bytes {| cells := pre ++ old ++ rest; spill := sp |} p s
  = {| cells := pre ++ s ++ rest; spill := sp |}.
Proof.
  intros Hl ->. unfold store_bytes, len. cbn [cells spill].
  destruct (Z.of_nat (length pre) <? 0) eqn:E; [apply Z.ltb_lt in E; lia|].
  rewrite Nat2Z.id, !length_app.
  rewrite take_app_length.
  rewrite (take_ge s) by lia. rewrite (drop_ge s) by lia.
  cbn [imap]. rewrite app_nil_r.
  rewrite drop_app_add, <- Hl, drop_app_length. reflexivity.
Qed.

(** Copying a run is storing its elements one after the other. *)
Lemma store_bytes_cons {A} (m : array A) (p : Z) (x : A) (s : list A) :
  0 <= p ->
  store_bytes m p (x :: s) = store_bytes (store m p x) (p + 1) s.
Proof.
  intros Hp. destruct m as [cs sp]. unfold store_bytes, store, len. cbn [cells spill].
  destruct (p <? 0) eqn:E; [apply Z.ltb_lt in E; lia|].
  destruct (p + 1 <? 0) eqn:E1; [apply Z.ltb_lt in E1; lia|].
  destruct (0 <=? p) eqn:E0; [|apply Z.leb_gt in E0; lia].
  replace (Z.to_nat (p + 1)) with (S (Z.to_nat p)) by lia.
  destruct (p <? Z.of_nat (length cs)) eqn:E2; cbn [andb cells spill].
  - apply Z.ltb_lt in E2. rewrite length_insert.
    replace (length cs - Z.to_nat p)%nat with (S (length cs - S (Z.to_nat p))) by lia.
    cbn [take drop length].
    destruct (lookup_lt_is_Some_2 (<[Z.to_nat p:=x]> cs) (Z.to_nat p)) as [y Hy];
      [rewrite length_insert; lia|].
    rewrite list_lookup_insert_eq in Hy by lia. injection Hy as <-.
    rewrite (take_S_r _ _ x) by (apply list_lookup_insert_eq; lia).
    rewrite take_insert_ge by lia. rewrite drop_insert_lt by lia.
    rewrite <- app_assoc. cbn [app].
    replace (Z.to_nat p + S (length s))%nat with (S (Z.to_nat p) + length s)%nat by lia.
    f_equal. f_equal.
    apply imap_ext. intros i y _. f_equal. lia.
  - apply Z.ltb_ge in E2.
    replace (length cs - Z.to_nat p)%nat with 0%nat by lia.
    replace (length cs - S (Z.to_nat p))%nat with 0%nat by lia.
    cbn [take drop app imap]. rewrite !take_ge by lia. rewrite !drop_ge by (cbn [length]; lia).
    f_equal. rewrite <- app_assoc. cbn [app]. f_equal. f_equal; [f_equal; lia|].
    apply imap_ext. intros i y _. cbn. f_equal. lia.
Qed.

(** ** The unwinder *)

Lemma Unwind_Backtrace_fills chain written avail beyond sp :
  let k := Nat.min (length avail) (length (frames_seen chain)) in
  _Unwind_Backtrace chain
    ({| current := len written; end_ := len written + len avail |},
     {| cells := written ++ avail ++ beyond; spill := sp |})
  = ({| current := len written + Z.of_nat k; end_ := len written + len avail |},
     {| cells := written ++ take k (frames_seen chain) ++ drop k avail ++ beyond;
        spill := sp |}).
Proof.
  revert written avail; induction chain as [|pc outer IH]; intros written avail.
  - cbn. rewrite Nat.min_0_r. cbn. rewrite Z.add_0_r. reflexivity.
  - cbn [_Unwind_Backtrace unwindCallback frames_seen List.filter].
    destruct (pc =? 0) eqn:Epc; cbn [negb].
    + apply IH.
    + cbn [current end_ length].
      destruct avail as [|a avail].
      * unfold len. cbn [length]. rewrite Z.add_0_r, Z.eqb_refl.
        cbn. rewrite Z.add_0_r. reflexivity.
      * destruct (len written =? len written + len (a :: avail)) eqn:E.
        { apply Z.eqb_eq in E. unfold len in E. cbn [length] in E. lia. }
        cbn [app]. rewrite store_in_place by reflexivity.
        replace (written ++ pc :: avail ++ beyond)
          with ((written ++ [pc]) ++ avail ++ beyond)
          by (rewrite <- app_assoc; reflexivity).
        replace (len written + 1) with (len (written ++ [pc]))
          by (unfold len; rewrite length_app; simpl; lia).
        replace (len written + len (a :: avail))
          with (len (written ++ [pc]) + len avail)
          by (unfold len; rewrite length_app; simpl; lia).
        rewrite IH. cbn [length Nat.min take drop].
        rewrite <- app_assoc. cbn [app].
        f_equal. f_equal. unfold len. rewrite length_app. cbn [length].
        unfold frames_seen. lia.
Qed.

Lemma captureStackTrace_spec chain (buffer : array Z) (maxFrames : Z) :
  0 <= maxFrames <= len (cells buffer) ->
  let k := Nat.min (Z.to_nat maxFrames) (length (frames_seen chain)) in
  captureStackTrace chain buffer maxFrames
  = ({| cells := take k (frames_seen chain) ++ drop k (cells buffer);
        spill := spill buffer |}, Z.of_nat k).
Proof.
  intros H. unfold captureStackTrace.
  destruct buffer as [cs sp]. cbn [cells spill] in *.
  pose proof (Unwind_Backtrace_fills chain [] (take (Z.to_nat maxFrames) cs)
                (drop (Z.to_nat maxFrames) cs) sp) as L.
  unfold len in L, H. cbn [length app] in L.
  rewrite length_take_le in L by lia.
  rewrite Z2Nat.id in L by lia. rewrite take_drop in L.
  change (Z.of_nat 0) with 0 in L. rewrite L. cbn [current].
  cbv zeta. f_equal; [|lia].
  f_equal. f_equal.
  rewrite <- (take_drop (Z.to_nat maxFrames) cs) at 3.
  rewrite drop_app_le; [reflexivity|]. rewrite length_take_le by lia. lia.
Qed.

Lemma signalHandler_frames signal info d w :
  isHandlingCrash w = 0 ->
  stackFrames (signalHandler P signal info d w)
    = (captureStackTrace (unwound d) (stackFrames w) MAX_FRAMES).1
  /\ stackFrameCount (signalHandler P signal info d w)
    = (captureStackTrace (unwound d) (stackFrames w) MAX_FRAMES).2.
Proof.
  intros H. unfold signalHandler.
  rewrite H. change (negb (0 =? 0)) with false. cbv iota.
  wsimpl.
  destruct (captureStackTrace _ _ _) as [frames count]. wsimpl.
  destruct (formatStackTraceJson _ _ _ _ _) as [stj off]. wsimpl.
  destruct (snprintf _ _ _ _) as [json r]. wsimpl.
  unfold sigaction.
  destruct (crashCallback w =? 0), (sigaction_fails P signal); wsimpl; split; reflexivity.
Qed.

(** Where the handler's frame list and document come from. *)
Lemma signalHandler_document signal info d w :
  isHandlingCrash w = 0 ->
  let captured := captureStackTrace (unwound d) (stackFrames w) MAX_FRAMES in
  let stackTraceJson :=
    (formatStackTraceJson P (fresh (resize (Z.to_nat 16384) NUL (junk d))) 16384
       (cells captured.1) captured.2).1 in
  let w' := signalHandler P signal info d w in
  clobbered w' = clobbered w ++ spill stackTraceJson
  /\ crashJsonBuffer w' =
       (snprintf (crashJsonBuffer w) 0 32768
          (crash_text P signal info (match info with Some i => si_addr i | None => 0 end)
             (self d) (cells stackTraceJson))).1.
Proof.
  intros H. unfold signalHandler.
  rewrite H. change (negb (0 =? 0)) with false. cbv iota.
  wsimpl.
  destruct (captureStackTrace _ _ _) as [frames count]. wsimpl.
  destruct (formatStackTraceJson _ _ _ _ _) as [stj off]. wsimpl.
  destruct (snprintf _ _ _ _) as [json r]. wsimpl.
  unfold sigaction.
  destruct (crashCallback w =? 0), (sigaction_fails P signal); wsimpl; split; reflexivity.
Qed.

(** C3.  [captureStackTrace] on a buffer with room for [maxFrames] entries
    stores the non-null instruction pointers of the walk, innermost first,
    in the first entries of the buffer, changes no entry after them, stores
    nothing outside the buffer and returns how many it stored: all of them,
    or [maxFrames] when there are more.  In the handler the buffer is
    [stackFrames] and the bound is [MAX_FRAMES], which is 128; a walk with
    more frames than that yields a count of exactly 128. *)
Theorem capture_fills_prefix_within_bounds :
  (forall chain (buffer : array Z) (maxFrames : Z),
     0 <= maxFrames <= len (cells buffer) ->
     let buffer' := (captureStackTrace chain buffer maxFrames).1 in
     let count := (captureStackTrace chain buffer maxFrames).2 in
     count = Z.min maxFrames (len (frames_seen chain))
     /\ cells buffer' = take (Z.to_nat count) (frames_seen chain)
                        ++ drop (Z.to_nat count) (cells buffer)
     /\ spill buffer' = spill buffer
     /\ (maxFrames < len (frames_seen chain) -> count = maxFrames))
  /\ MAX_FRAMES = 128
  /\ (forall signal info d w,
       isHandlingCrash w = 0 -> len (cells (stackFrames w)) = MAX_FRAMES ->
       let w' := signalHandler P signal info d w in
       stackFrameCount w' = Z.min 128 (len (frames_seen (unwound d)))
       /\ spill (stackFrames w') = spill (stackFrames w)
       /\ len (cells (stackFrames w')) = MAX_FRAMES
       /\ (128 < len (frames_seen (unwound d)) -> stackFrameCount w' = 128)).
Proof.
  assert (forall chain (buffer : array Z) (maxFrames : Z),
     0 <= maxFrames <= len (cells buffer) ->
     let buffer' := (captureStackTrace chain buffer maxFrames).1 in
     let count := (captureStackTrace chain buffer maxFrames).2 in
     count = Z.min maxFrames (len (frames_seen chain))
     /\ cells buffer' = take (Z.to_nat count) (frames_seen chain)
                        ++ drop (Z.to_nat count) (cells buffer)
     /\ spill buffer' = spill buffer
     /\ (maxFrames < len (frames_seen chain) -> count = maxFrames)) as General.
  { intros chain buffer maxFrames H. cbv zeta.
    rewrite (captureStackTrace_spec chain buffer maxFrames H).
    cbn [fst snd cells spill]. rewrite Nat2Z.id. unfold len.
    repeat split; lia. }
  split; [exact General|]. split; [reflexivity|].
  intros signal info d w Hg Hlen.
  destruct (signalHandler_frames signal info d w Hg) as (Hf & Hc).
  assert (0 <= MAX_FRAMES <= len (cells (stackFrames w))) as Hb
    by (rewrite Hlen; unfold MAX_FRAMES; lia).
  destruct (General (unwound d) (stackFrames w) MAX_FRAMES Hb) as (G1 & G2 & G3 & G4).
  cbv zeta. rewrite Hf, Hc.
  split; [exact G1|]. split; [exact G3|]. split; [|exact G4].
  rewrite G2. unfold len in *. rewrite length_app, length_take, length_drop.
  unfold MAX_FRAMES in *. lia.
Qed.

(** ** The frame list when every piece has room *)

Lemma len_app {A} (l1 l2 : list A) : len (l1 ++ l2) = len l1 + len l2.
Proof. unfold len. rewrite length_app. lia. Qed.

Lemma len_nonneg {A} (l : list A) : 0 <= len l.
Proof. unfold len. lia. Qed.

Lemma snprintf_fits pre tail sp dst n s :
  dst = len pre -> n = len tail -> len s < n ->
  snprintf {| cells := pre ++ tail; spill := sp |} dst n s
  = ({| cells := pre ++ s ++ NUL :: drop (S (length s)) tail; spill := sp |}, len s).
Proof.
  intros Hd Hn Hs. unfold snprintf.
  pose proof (len_nonneg s) as Hs0.
  destruct (n =? 0) eqn:E; [apply Z.eqb_eq in E; lia|].
  rewrite Z.min_l by lia. unfold len at 1. rewrite Nat2Z.id, firstn_all.
  f_equal.
  rewrite <- (take_drop (S (length s)) tail) at 1.
  rewrite (store_bytes_in_place (s ++ [NUL]) (take (S (length s)) tail)).
  - rewrite <- app_assoc. reflexivity.
  - rewrite length_take_le, length_app by (unfold len in *; lia). simpl. lia.
  - assumption.
Qed.

Section Fits.

Context (bufferSize : Z) (frames : list Z).
Hypothesis size_ok : 256 <= bufferSize < SIZE_MODULUS P.

Lemma size_t_small z : 0 <= z <= bufferSize -> size_t P z = z.
Proof. intros H. unfold size_t. apply Z.mod_small. lia. Qed.

Lemma format_frame_fits i addr pre tail sp offset :
  offset = len pre -> len (pre ++ tail) = bufferSize ->
  offset + len (frame_piece P i addr) <= bufferSize - 2 ->
  format_frame P i addr bufferSize {| cells := pre ++ tail; spill := sp |} offset
  = ({| cells := pre ++ frame_piece P i addr
                  ++ NUL :: drop (S (length (frame_piece P i addr))) tail;
        spill := sp |},
     offset + len (frame_piece P i addr)).
Proof.
  intros Ho Hl Hroom. unfold format_frame, frame_piece in *.
  rewrite len_app in Hl.
  pose proof (len_nonneg pre). pose proof (len_nonneg (frame_text P i addr)).
  destruct (0 <? i).
  - rewrite len_app in Hroom. change (len (T ",")) with 1 in Hroom.
    rewrite (size_t_small (bufferSize - offset)) by lia.
    rewrite (snprintf_fits pre tail sp offset _ (T ",")) by (change (len (T ",")) with 1; lia).
    change (len (T ",")) with 1. rewrite (size_t_small (offset + 1)) by lia.
    replace (pre ++ T "," ++ NUL :: drop (S (length (T ","))) tail)
      with ((pre ++ T ",") ++ NUL :: drop (S (length (T ","))) tail)
      by (rewrite <- app_assoc; reflexivity).
    assert (len (NUL :: drop (S (length (T ","))) tail) = bufferSize - (offset + 1)) as Ht.
    { unfold len in *. cbn [length]. rewrite length_drop. change (length (T ",")) with 1%nat. lia. }
    rewrite (size_t_small (bufferSize - (offset + 1))) by lia.
    rewrite (snprintf_fits (pre ++ T ",") _ sp (offset + 1) _ (frame_text P i addr)).
    + rewrite (size_t_small (offset + 1 + _)) by lia.
      f_equal; [|rewrite len_app; change (len (T ",")) with 1; lia].
      f_equal. rewrite <- !app_assoc. do 3 f_equal.
      change (length (T ",")) with 1%nat. cbn [drop].
      rewrite drop_drop, length_app. change (length (T ",")) with 1%nat.
      reflexivity.
    + rewrite len_app. change (len (T ",")) with 1. lia.
    + symmetry; exact Ht.
    + lia.
  - cbn [app] in *.
    rewrite (size_t_small (bufferSize - offset)) by lia.
    rewrite (snprintf_fits pre tail sp offset _ (frame_text P i addr)) by lia.
    rewrite (size_t_small (offset + _)) by lia. reflexivity.
Qed.

Lemma format_frames_fits n : forall i pre tail sp offset,
  offset = len pre -> len (pre ++ tail) = bufferSize -> offset <= bufferSize - 2 ->
  (forall j, i <= j < i + Z.of_nat n ->
     len (frame_piece P j (default 0 (frames !! Z.to_nat j))) <= 255) ->
  exists tail',
    format_frames P n i frames bufferSize {| cells := pre ++ tail; spill := sp |} offset
    = ({| cells := pre ++ emitted P n i frames bufferSize offset ++ tail'; spill := sp |},
       offset + len (emitted P n i frames bufferSize offset))
    /\ len (emitted P n i frames bufferSize offset) + len tail' = len tail
    /\ offset + len (emitted P n i frames bufferSize offset) <= bufferSize - 2.
Proof.
  induction n as [|n IH]; intros i pre tail sp offset Ho Hl Hroom Hshort.
  - exists tail. cbn [format_frames emitted app]. change (len []) with 0.
    rewrite Z.add_0_r. repeat split; lia.
  - cbn [format_frames emitted].
    rewrite (size_t_small (bufferSize - 256)) by lia.
    destruct (offset <? bufferSize - 256) eqn:E.
    + apply Z.ltb_lt in E.
      set (addr := default 0 (frames !! Z.to_nat i)).
      set (s := frame_piece P i addr).
      assert (len s <= 255) as Hs by (apply Hshort; lia).
      pose proof (len_nonneg s) as Hs0.
      rewrite (format_frame_fits i addr pre tail sp offset Ho Hl) by (fold s; lia).
      fold s.
      replace (pre ++ s ++ NUL :: drop (S (length s)) tail)
        with ((pre ++ s) ++ NUL :: drop (S (length s)) tail)
        by (rewrite <- app_assoc; reflexivity).
      rewrite len_app in Hl. pose proof (len_nonneg pre).
      assert (len (NUL :: drop (S (length s)) tail) = len tail - len s) as Ht.
      { unfold len in *. cbn [length]. rewrite length_drop. lia. }
      destruct (IH (i + 1) (pre ++ s) (NUL :: drop (S (length s)) tail) sp (offset + len s))
        as (tail' & Hrun & Hlen & Hend).
      * rewrite len_app. lia.
      * rewrite len_app, Ht, len_app. lia.
      * lia.
      * intros j Hj. apply Hshort. lia.
      * exists tail'. rewrite Hrun. rewrite !len_app.
        split; [|split; lia].
        f_equal; [|lia]. f_equal. rewrite <- !app_assoc. reflexivity.
    + exists tail. cbn [app]. change (len []) with 0.
      rewrite Z.add_0_r. repeat split; lia.
Qed.

Lemma formatStackTraceJson_fits cs sp frameCount :
  len cs = bufferSize ->
  (forall j, 0 <= j < frameCount ->
     len (frame_piece P j (default 0 (frames !! Z.to_nat j))) <= 255) ->
  exists rest,
    formatStackTraceJson P {| cells := cs; spill := sp |} bufferSize frames frameCount
    = ({| cells := T "[" ++ emitted P (Z.to_nat frameCount) 0 frames bufferSize 1
                    ++ T "]" ++ NUL :: rest;
          spill := sp |},
       1 + len (emitted P (Z.to_nat frameCount) 0 frames bufferSize 1) + 1)
    /\ 1 + len (emitted P (Z.to_nat frameCount) 0 frames bufferSize 1) + 1 < bufferSize.
Proof.
  intros Hl Hshort. unfold formatStackTraceJson.
  rewrite (size_t_small (bufferSize - 0)) by lia.
  rewrite (snprintf_fits [] cs sp 0 _ (T "[")); [|reflexivity|lia|change (len (T "[")) with 1; lia].
  change (len (T "[")) with 1. rewrite (size_t_small (0 + 1)) by lia.
  change (0 + 1) with 1. cbn [app].
  change (length (T "[")) with 1%nat.
  destruct (format_frames_fits (Z.to_nat frameCount) 0 (T "[") (NUL :: drop 2 cs) sp 1)
    as (tail' & Hrun & Hlen & Hend).
  - reflexivity.
  - rewrite len_app. change (len (T "[")) with 1. unfold len in *. cbn [length].
    rewrite length_drop. lia.
  - lia.
  - intros j Hj. apply Hshort. lia.
  - rewrite Hrun.
    set (E := emitted P (Z.to_nat frameCount) 0 frames bufferSize 1) in *.
    pose proof (len_nonneg E).
    assert (len tail' = bufferSize - 1 - len E) as Ht.
    { unfold len in *. cbn [length] in Hlen. rewrite length_drop in Hlen. lia. }
    rewrite (size_t_small (bufferSize - _)) by lia.
    replace (T "[" ++ E ++ tail') with ((T "[" ++ E) ++ tail')
      by (rewrite <- app_assoc; reflexivity).
    rewrite (snprintf_fits (T "[" ++ E) tail' sp _ _ (T "]")).
    + change (len (T "]")) with 1. rewrite (size_t_small (1 + len E + 1)) by lia.
      exists (drop (S (length (T "]"))) tail').
      split; [|lia]. rewrite <- !app_assoc. reflexivity.
    + rewrite len_app. reflexivity.
    + lia.
    + change (len (T "]")) with 1. lia.
Qed.

Lemma frame_piece_nonempty i addr : 1 <= len (frame_piece P i addr).
Proof.
  unfold frame_piece. destruct (0 <? i).
  - rewrite len_app. change (len (T ",")) with 1.
    pose proof (len_nonneg (frame_text P i addr)). lia.
  - cbn [app]. unfold frame_text. rewrite len_app. change (len (T "{")) with 1.
    match goal with |- 1 <= 1 + len ?l => pose proof (len_nonneg l) end. lia.
Qed.

Lemma emitted_all l : forall done i offset,
  i = len done -> frames = done ++ l ->
  offset + len (all_pieces P i l) <= bufferSize - 256 ->
  emitted P (length l) i frames bufferSize offset = all_pieces P i l.
Proof.
  induction l as [|addr l IH]; intros done i offset Hi Hf Hroom.
  - reflexivity.
  - cbn [length emitted all_pieces] in *.
    rewrite len_app in Hroom.
    pose proof (frame_piece_nonempty i addr).
    pose proof (len_nonneg (all_pieces P (i + 1) l)).
    destruct (offset <? bufferSize - 256) eqn:E; [|apply Z.ltb_ge in E; lia].
    assert (frames !! Z.to_nat i = Some addr) as ->.
    { subst i frames. unfold len. rewrite Nat2Z.id.
      apply list_lookup_middle. reflexivity. }
    cbn [from_option id]. f_equal.
    apply (IH (done ++ [addr])).
    + rewrite len_app. subst i. reflexivity.
    + rewrite <- app_assoc. exact Hf.
    + lia.
Qed.

End Fits.

(** ** Symbol lookup *)

Lemma strrchr_None s c : strrchr s c = None -> c ∉ s.
Proof.
  induction s as [|x s IH]; cbn [strrchr]; intros H.
  - apply not_elem_of_nil.
  - destruct (strrchr s c); [discriminate|].
    destruct (Ascii.eqb x c) eqn:E; [discriminate|].
    apply Ascii.eqb_neq in E.
    intros Hin. apply elem_of_cons in Hin as [->|Hin]; [congruence|].
    exact (IH eq_refl Hin).
Qed.

Lemma strrchr_Some s c k :
  strrchr s c = Some k ->
  s = take k s ++ c :: drop (S k) s /\ c ∉ drop (S k) s.
Proof.
  revert k; induction s as [|x s IH]; cbn [strrchr]; intros k H.
  - discriminate.
  - destruct (strrchr s c) as [k'|] eqn:E.
    + injection H as <-. destruct (IH k' eq_refl) as (Hs & Hn).
      cbn [take drop app]. split; [f_equal; exact Hs|exact Hn].
    + destruct (Ascii.eqb x c) eqn:Ex; [|discriminate].
      injection H as <-. apply Ascii.eqb_eq in Ex. subst x.
      cbn [take drop app]. rewrite drop_0. split; [reflexivity|].
      apply strrchr_None. exact E.
Qed.

(** C7.  For one address: when a symbol is found its name is copied and the
    offset is the address minus the symbol's start, as a [ptrdiff_t]: the
    difference itself whenever it lies in that type's range, the difference
    less the modulus of the type when it lies in the upper half of
    [size_t]'s range; when none is found the symbol is the sentinel and the
    offset 0.  When the containing file is
    known the module is what follows its last slash, the whole name when it
    has none; when it is not known the module is the sentinel.  Each of the
    two fields falls back on its own.  And the frame list: when all pieces
    stay below the safety margin, the buffer holds the objects of all the
    frames, in order, each rendered from the lookup for its own address, so
    a frame that resolves to sentinels does not stop the ones after it. *)
Theorem resolver_fields_and_sentinels :
  (forall addr info sname,
     dladdr P addr = Some info -> dli_sname info = Some sname ->
     symbolName (resolve P addr) = sname
     /\ symbolOffset (resolve P addr) = ptrdiff_t P (addr - dli_saddr info)
     /\ (- (SIZE_MODULUS P / 2) <= addr - dli_saddr info < SIZE_MODULUS P / 2 ->
         symbolOffset (resolve P addr) = addr - dli_saddr info)
     /\ (SIZE_MODULUS P mod 2 = 0 ->
         SIZE_MODULUS P / 2 <= addr - dli_saddr info < SIZE_MODULUS P ->
         symbolOffset (resolve P addr) = addr - dli_saddr info - SIZE_MODULUS P))
  /\ (forall addr,
       (dladdr P addr = None
        \/ exists info, dladdr P addr = Some info /\ dli_sname info = None) ->
       symbolName (resolve P addr) = T "???" /\ symbolOffset (resolve P addr) = 0)
  /\ (forall addr info fname,
       dladdr P addr = Some info -> dli_fname info = Some fname ->
       exists dir,
         fname = dir ++ moduleName (resolve P addr)
         /\ ("/"%char ∉ moduleName (resolve P addr))
         /\ (dir = [] \/ last dir = Some "/"%char))
  /\ (forall addr,
       (dladdr P addr = None
        \/ exists info, dladdr P addr = Some info /\ dli_fname info = None) ->
       moduleName (resolve P addr) = T "???")
  /\ (forall bufferSize frames cs sp,
       256 <= bufferSize < SIZE_MODULUS P -> len cs = bufferSize ->
       (forall j, 0 <= j < len frames ->
          len (frame_piece P j (default 0 (frames !! Z.to_nat j))) <= 255) ->
       1 + len (all_pieces P 0 frames) <= bufferSize - 256 ->
       exists rest,
         (formatStackTraceJson P {| cells := cs; spill := sp |} bufferSize frames (len frames)).1
         = {| cells := T "[" ++ all_pieces P 0 frames ++ T "]" ++ NUL :: rest;
              spill := sp |}).
Proof.
  split; [|split; [|split; [|split]]].
  - intros addr info sname Hd Hs. unfold resolve. rewrite Hd.
    cbn [symbolName symbolOffset]. rewrite Hs.
    split; [reflexivity|]. split; [reflexivity|].
    split; [apply ptrdiff_t_id|apply ptrdiff_t_wraps].
  - intros addr [Hd|(info & Hd & Hs)]; unfold resolve; rewrite Hd; cbn;
      [|rewrite Hs]; split; reflexivity.
  - intros addr info fname Hd Hf. unfold resolve. rewrite Hd. cbn. rewrite Hf.
    destruct (strrchr fname "/"%char) as [k|] eqn:E.
    + destruct (strrchr_Some _ _ _ E) as (Hsplit & Hno).
      exists (take k fname ++ ["/"%char]). split; [|split].
      * rewrite <- app_assoc. exact Hsplit.
      * exact Hno.
      * right. apply last_snoc.
    + exists []. split; [reflexivity|]. split; [|left; reflexivity].
      apply strrchr_None. exact E.
  - intros addr [Hd|(info & Hd & Hf)]; unfold resolve; rewrite Hd; cbn;
      [|rewrite Hf]; reflexivity.
  - intros bufferSize frames cs sp Hsize Hl Hshort Hroom.
    destruct (formatStackTraceJson_fits bufferSize frames Hsize cs sp (len frames) Hl Hshort)
      as (rest & Hrun & _).
    exists rest. rewrite Hrun. cbn [fst].
    unfold len at 1. rewrite Nat2Z.id.
    rewrite (emitted_all bufferSize frames frames [] 0 1); [reflexivity| reflexivity | reflexivity | lia].
Qed.

End Properties.

(** * The frame list on long symbols *)

(** C2, at an input the handler can receive: 64 frames of one function whose
    symbol has 189 characters, captured into [stackFrames] and written into
    the handler's 16384-byte array.  The loop starts the 59th frame at offset
    16114, below the margin of 16128, and comma and frame need 278 bytes:
    [snprintf] cuts the frame at the end of the array and returns its full
    length, so [offset] becomes 16392.  The size left, 16384 - 16392, wraps around in [size_t],
    and the closing bracket and its terminator are stored at offsets 16392
    and 16393, past the array.  The string left in the array stops in the
    middle of a key and is never closed; by [signalHandler_document] it is
    what the handler copies into the crash document. *)
Theorem serializer_overruns_on_long_symbols :
  let captured :=
    captureStackTrace (unwound deep_recursion) (stackFrames (boot ∅)) MAX_FRAMES in
  let stackTraceJson := fresh (resize (Z.to_nat 16384) NUL (junk deep_recursion)) in
  let out :=
    formatStackTraceJson arm64_long_symbols stackTraceJson 16384
      (cells captured.1) captured.2 in
  captured.2 = 64
  /\ len (cells stackTraceJson) = 16384
  /\ out.2 = 16393
  /\ spill out.1 = [(16392, "]"%char); (16393, NUL)]
  /\ len (cstring (cells out.1)) = 16383
  /\ drop (Z.to_nat 16377) (cstring (cells out.1)) = [dq] ++ T "offse".
Proof. vm_compute. repeat split. Qed.

(** * The theorems at concrete inputs *)

Lemma reentrancy_flag_is_one_shot_witness :
  isHandlingCrash crashed <> 0
  /\ (isHandlingCrash (run arm64 aftermath crashed) = isHandlingCrash crashed
      /\ crashJsonBuffer (run arm64 aftermath crashed) = crashJsonBuffer crashed
      /\ stackFrames (run arm64 aftermath crashed) = stackFrames crashed
      /\ invocations (trace (run arm64 aftermath crashed)) = invocations (trace crashed)).
Proof.
  assert (isHandlingCrash crashed <> 0) as H by (vm_compute; discriminate).
  split; [exact H|].
  exact (proj1 (proj2 (proj2 (proj2 (reentrancy_flag_is_one_shot arm64)))) aftermath crashed H).
Defined.

Lemma capture_fills_prefix_within_bounds_witness :
  0 <= 2 <= len (cells (fresh [1; 2; 3]))
  /\ (captureStackTrace (unwound quiet) (fresh [1; 2; 3]) 2).2
      = Z.min 2 (len (frames_seen (unwound quiet)))
  /\ cells (captureStackTrace (unwound quiet) (fresh [1; 2; 3]) 2).1
      = [0x7000001234; 0x7100000040; 3].
Proof.
  assert (0 <= 2 <= len (cells (fresh [1; 2; 3]))) as H by (vm_compute; split; discriminate).
  split; [exact H|].
  destruct (proj1 (capture_fills_prefix_within_bounds arm64) (unwound quiet) (fresh [1; 2; 3]) 2 H)
    as (Hc & Hcells & _).
  split; [exact Hc|]. rewrite Hcells. reflexivity.
Defined.

Lemma handler_restores_saved_then_reraises_witness :
  (isHandlingCrash armed = 0 /\ sigaction_fails arm64 11 = false
   /\ disposition crashed !! 11
       = Some {| sa_handler := fn_other 0x7200000100; sa_flags := 4; sa_mask := 0 |})
  /\ (isInitialized chained_boot = 0 /\ isHandlingCrash chained_boot = 0
      /\ NoDup (kSignalsToHandle arm64) /\ 11 ∈ kSignalsToHandle arm64
      /\ last (trace crashed) = Some (Raise 11 (table_get (disposition chained_boot) 11))).
Proof.
  assert (isHandlingCrash armed = 0) as Hg by (vm_compute; reflexivity).
  assert (sigaction_fails arm64 11 = false) as Hok by reflexivity.
  assert (isInitialized chained_boot = 0) as Hi by reflexivity.
  assert (isHandlingCrash chained_boot = 0) as Hg0 by reflexivity.
  assert (NoDup (kSignalsToHandle arm64)) as Hnd
    by (apply (bool_decide_unpack _); vm_compute; exact I).
  assert (11 ∈ kSignalsToHandle arm64) as Hin
    by (apply (bool_decide_unpack _); vm_compute; exact I).
  split.
  - split; [exact Hg|]. split; [exact Hok|].
    destruct (proj1 (handler_restores_saved_then_reraises arm64)
                11 (Some segv_at_null) quiet armed Hg Hok) as (Hd & _).
    etransitivity; [exact Hd|]. vm_compute. reflexivity.
  - split; [exact Hi|]. split; [exact Hg0|]. split; [exact Hnd|]. split; [exact Hin|].
    exact (proj2 (proj2 (proj2 (handler_restores_saved_then_reraises arm64)
             77 0x7300000000 11 (Some segv_at_null) quiet chained_boot Hi Hg0 Hnd Hin Hok))).
Defined.

Lemma initialize_twice_is_noop_witness :
  isInitialized armed <> 0
  /\ previousHandlers rearmed = previousHandlers armed
  /\ crashCallback rearmed = crashCallback armed
  /\ disposition rearmed = disposition armed
  /\ altstack rearmed = altstack armed.
Proof.
  assert (isInitialized armed <> 0) as H by (vm_compute; discriminate).
  split; [exact H|].
  destruct (initialize_twice_is_noop arm64 88 0x7400000000 armed H)
    as (Hp & Hc & Hd & _ & _ & _ & _ & _ & _ & Ha & _).
  split; [exact Hp|]. split; [exact Hc|]. split; [exact Hd|exact Ha].
Defined.

Lemma shutdown_restores_and_clears_witness :
  isInitialized armed <> 0
  /\ 11 ∈ kSignalsToHandle arm64
  /\ sigaction_fails arm64 11 = false
  /\ disposition disarmed !! 11 = Some (table_get (previousHandlers armed) 11)
  /\ crashCallback disarmed = 0
  /\ isInitialized disarmed = 0
  /\ invocations (trace (signalHandler arm64 11 (Some segv_at_null) quiet disarmed))
      = invocations (trace disarmed).
Proof.
  assert (isInitialized armed <> 0) as H by (vm_compute; discriminate).
  assert (11 ∈ kSignalsToHandle arm64) as Hin
    by (apply (bool_decide_unpack _); vm_compute; exact I).
  assert (sigaction_fails arm64 11 = false) as Hok by reflexivity.
  split; [exact H|]. split; [exact Hin|]. split; [exact Hok|].
  destruct (proj1 (shutdown_restores_and_clears arm64 armed) H)
    as (Hr & _ & _ & Hc & Hi & _ & Hn).
  split; [exact (Hr 11 Hin Hok)|].
  split; [exact Hc|]. split; [exact Hi|]. apply Hn.
Defined.

Lemma resolver_fields_and_sentinels_witness :
  (dladdr arm64 0x7000001234 = Some libil2cpp
   /\ dli_sname libil2cpp = Some (T "il2cpp_runtime_invoke")
   /\ symbolName (resolve arm64 0x7000001234) = T "il2cpp_runtime_invoke"
   /\ - (SIZE_MODULUS arm64 / 2) <= 0x7000001234 - dli_saddr libil2cpp
                                  < SIZE_MODULUS arm64 / 2
   /\ symbolOffset (resolve arm64 0x7000001234) = 0x7000001234 - dli_saddr libil2cpp)
  /\ (dladdr arm64_whole_space 0xfffffffffffff000 = Some vectors
      /\ SIZE_MODULUS arm64_whole_space / 2 <= 0xfffffffffffff000 - dli_saddr vectors
                                           < SIZE_MODULUS arm64_whole_space
      /\ symbolOffset (resolve arm64_whole_space 0xfffffffffffff000) = -8192)
  /\ (256 <= 1024 < SIZE_MODULUS arm64
      /\ len (replicate (Z.to_nat 1024) NUL) = 1024
      /\ 1 + len (all_pieces arm64 0 mixed_frames) <= 1024 - 256
      /\ exists rest,
          (formatStackTraceJson arm64 (fresh (replicate (Z.to_nat 1024) NUL)) 1024
             mixed_frames (len mixed_frames)).1
          = {| cells := T "[" ++ all_pieces arm64 0 mixed_frames ++ T "]" ++ NUL :: rest;
               spill := [] |}).
Proof.
  assert (dladdr arm64 0x7000001234 = Some libil2cpp) as Hd by reflexivity.
  assert (dli_sname libil2cpp = Some (T "il2cpp_runtime_invoke")) as Hs by reflexivity.
  assert (256 <= 1024 < SIZE_MODULUS arm64) as Hb by (vm_compute; split; [discriminate|reflexivity]).
  assert (- (SIZE_MODULUS arm64 / 2) <= 0x7000001234 - dli_saddr libil2cpp
                                      < SIZE_MODULUS arm64 / 2) as Hr
    by (vm_compute; split; [discriminate|reflexivity]).
  assert (len (replicate (Z.to_nat 1024) NUL) = 1024) as Hl by (vm_compute; reflexivity).
  assert (1 + len (all_pieces arm64 0 mixed_frames) <= 1024 - 256) as Hroom
    by (vm_compute; discriminate).
  assert (forall j, 0 <= j < len mixed_frames ->
            len (frame_piece arm64 j (default 0 (mixed_frames !! Z.to_nat j))) <= 255) as Hshort.
  { intros j Hj. change (len mixed_frames) with 3 in Hj.
    assert (j = 0 \/ j = 1 \/ j = 2) as [-> | [-> | ->]] by lia; vm_compute; discriminate. }
  split; [|split].
  - split; [exact Hd|]. split; [exact Hs|].
    destruct (proj1 (resolver_fields_and_sentinels arm64) 0x7000001234 libil2cpp _ Hd Hs)
      as (Hn & _ & Ho & _).
    split; [exact Hn|]. split; [exact Hr|]. exact (Ho Hr).
  - assert (dladdr arm64_whole_space 0xfffffffffffff000 = Some vectors) as Hd'
      by reflexivity.
    assert (SIZE_MODULUS arm64_whole_space / 2 <= 0xfffffffffffff000 - dli_saddr vectors
                                                < SIZE_MODULUS arm64_whole_space) as Hr'
      by (vm_compute; split; [discriminate|reflexivity]).
    split; [exact Hd'|]. split; [exact Hr'|].
    destruct (proj1 (resolver_fields_and_sentinels arm64_whole_space)
                0xfffffffffffff000 vectors _ Hd' eq_refl) as (_ & _ & _ & Hw).
    rewrite (Hw eq_refl Hr'). reflexivity.
  - split; [exact Hb|]. split; [exact Hl|]. split; [exact Hroom|].
    exact (proj2 (proj2 (proj2 (proj2 (resolver_fields_and_sentinels arm64))))
             1024 mixed_frames (replicate (Z.to_nat 1024) NUL) [] Hb Hl Hshort Hroom).
Defined.

Lemma install_failure_is_per_signal_witness :
  isInitialized chained_boot = 0
  /\ 11 ∈ kSignalsToHandle arm64_no_sigbus
  /\ 7 ∈ kSignalsToHandle arm64_no_sigbus
  /\ sigaction_fails arm64_no_sigbus 11 = false
  /\ sigaction_fails arm64_no_sigbus 7 = true
  /\ sa_handler (table_get (disposition armed_without_sigbus) 11) = fn_signalHandler
  /\ deliver arm64_no_sigbus 11 (Some segv_at_null) quiet armed_without_sigbus
     = runs_engine
         (signalHandler arm64_no_sigbus 11 (Some segv_at_null) quiet armed_without_sigbus)
  /\ disposition armed_without_sigbus !! 7 = disposition chained_boot !! 7
  /\ isInitialized armed_without_sigbus = 1.
Proof.
  assert (isInitialized chained_boot = 0) as H by reflexivity.
  assert (11 ∈ kSignalsToHandle arm64_no_sigbus) as Hin11
    by (apply (bool_decide_unpack _); vm_compute; exact I).
  assert (7 ∈ kSignalsToHandle arm64_no_sigbus) as Hin7
    by (apply (bool_decide_unpack _); vm_compute; exact I).
  split; [exact H|]. split; [exact Hin11|]. split; [exact Hin7|].
  split; [reflexivity|]. split; [reflexivity|].
  destruct (install_failure_is_per_signal arm64_no_sigbus 77 0x7300000000 chained_boot H)
    as (Hok & Hfail & Hi & _).
  destruct (Hok 11 Hin11 eq_refl) as (Hs & Hdel & _).
  split; [unfold table_get; fold armed_without_sigbus in Hs; rewrite Hs; reflexivity|].
  split; [exact (Hdel (Some segv_at_null) quiet)|].
  split; [exact (proj1 (Hfail 7 Hin7 eq_refl))|exact Hi].
Defined.



Lemma handled_signals_are_the_seven_witness :
  isInitialized chained_boot = 0
  /\ 13 ∈ [SIGABRT arm64; SIGBUS arm64; SIGFPE arm64; SIGILL arm64; SIGSEGV arm64;
           SIGTRAP arm64; SIGPIPE arm64]
  /\ sigaction_fails arm64 13 = false
  /\ sa_handler (table_get (disposition armed) 13) = fn_signalHandler
  /\ isHandlingCrash chained_boot = 0
  /\ (exists w1, deliver arm64 (SIGPIPE arm64) None quiet armed = runs_engine w1
                 /\ isHandlingCrash w1 = 1
                 /\ signalHandler arm64 11 (Some segv_at_null) quiet w1 = w1)
  /\ isHandlingCrash armed = 0
  /\ isHandlingCrash (signalHandler arm64 (SIGPIPE arm64) None quiet armed) = 1.
Proof.
  assert (isInitialized chained_boot = 0) as H by reflexivity.
  assert (13 ∈ [SIGABRT arm64; SIGBUS arm64; SIGFPE arm64; SIGILL arm64; SIGSEGV arm64;
                SIGTRAP arm64; SIGPIPE arm64]) as Hin
    by (apply (bool_decide_unpack _); vm_compute; exact I).
  assert (isHandlingCrash chained_boot = 0) as Hg0 by reflexivity.
  assert (isHandlingCrash armed = 0) as Hg by (vm_compute; reflexivity).
  split; [exact H|]. split; [exact Hin|]. split; [reflexivity|].
  destruct (handled_signals_are_the_seven arm64) as (_ & _ & Hset & Hpipe & Htrip).
  split; [|split; [exact Hg0|split; [|split; [exact Hg|]]]].
  - destruct (proj1 (Hset 77 0x7300000000 chained_boot 13 H) Hin eq_refl) as (Hs & _).
    unfold table_get. fold armed in Hs. rewrite Hs. reflexivity.
  - destruct (Hpipe 77 0x7300000000 None quiet chained_boot H Hg0 eq_refl)
      as (w1 & Hdel & Hset1 & Hinert).
    exists w1. split; [exact Hdel|]. split; [exact Hset1|]. apply Hinert.
  - exact (proj1 (Htrip None quiet armed Hg)).
Defined.

(** * Further properties of the unit *)

Section Further.

Context (P : platform).

(** ** Signal names *)

(** X1.  The two name tables know exactly the signals of the handled set:
    [signalName] answers [UNKNOWN], and [signalDescription] answers
    [Unknown signal], for the signal numbers outside [kSignalsToHandle] and
    for no number inside it, so no report of a handled signal carries the
    fallback texts. *)
Theorem signal_tables_cover_handled_set (signal : Z) :
  (signalName P signal = T "UNKNOWN" <-> signal ∉ kSignalsToHandle P)
  /\ (signalDescription P signal = T "Unknown signal" <-> signal ∉ kSignalsToHandle P).
Proof.
  unfold signalName, signalDescription, kSignalsToHandle.
  destruct (signal =? SIGABRT P) eqn:E1; [apply Z.eqb_eq in E1|apply Z.eqb_neq in E1].
  { split; (split; [intros H; vm_compute in H; discriminate
                   |intros H; exfalso; apply H; subst; apply elem_of_cons; auto]). }
  destruct (signal =? SIGBUS P) eqn:E2; [apply Z.eqb_eq in E2|apply Z.eqb_neq in E2].
  { split; (split; [intros H; vm_compute in H; discriminate
                   |intros H; exfalso; apply H; subst; rewrite !elem_of_cons; auto]). }
  destruct (signal =? SIGFPE P) eqn:E3; [apply Z.eqb_eq in E3|apply Z.eqb_neq in E3].
  { split; (split; [intros H; vm_compute in H; discriminate
                   |intros H; exfalso; apply H; subst; rewrite !elem_of_cons; auto]). }
  destruct (signal =? SIGILL P) eqn:E4; [apply Z.eqb_eq in E4|apply Z.eqb_neq in E4].
  { split; (split; [intros H; vm_compute in H; discriminate
                   |intros H; exfalso; apply H; subst; rewrite !elem_of_cons; auto 6]). }
  destruct (signal =? SIGSEGV P) eqn:E5; [apply Z.eqb_eq in E5|apply Z.eqb_neq in E5].
  { split; (split; [intros H; vm_compute in H; discriminate
                   |intros H; exfalso; apply H; subst; rewrite !elem_of_cons; auto 7]). }
  destruct (signal =? SIGTRAP P) eqn:E6; [apply Z.eqb_eq in E6|apply Z.eqb_neq in E6].
  { split; (split; [intros H; vm_compute in H; discriminate
                   |intros H; exfalso; apply H; subst; rewrite !elem_of_cons; auto 8]). }
  destruct (signal =? SIGPIPE P) eqn:E7; [apply Z.eqb_eq in E7|apply Z.eqb_neq in E7].
  { split; (split; [intros H; vm_compute in H; discriminate
                   |intros H; exfalso; apply H; subst; rewrite !elem_of_cons; auto 9]). }
  assert (signal ∉ [SIGABRT P; SIGBUS P; SIGFPE P; SIGILL P; SIGSEGV P; SIGTRAP P; SIGPIPE P])
    as Hout.
  { rewrite !elem_of_cons. intros [?|[?|[?|[?|[?|[?|[?|H]]]]]]]; try contradiction.
    apply elem_of_nil in H. exact H. }
  split; (split; [intros _; exact Hout | reflexivity]).
Qed.

(** ** The unwinder and the symbol lookup *)

Lemma frames_seen_spec chain (pc : Z) :
  pc ∈ frames_seen chain <-> pc ∈ chain /\ pc <> 0.
Proof.
  unfold frames_seen. rewrite !list_elem_of_In, List.filter_In.
  destruct (pc =? 0) eqn:E; [apply Z.eqb_eq in E|apply Z.eqb_neq in E];
    cbn [negb]; intuition congruence.
Qed.

Lemma frames_seen_skips pre post :
  frames_seen (pre ++ 0 :: post) = frames_seen (pre ++ post).
Proof.
  unfold frames_seen. rewrite !List.filter_app. reflexivity.
Qed.

Lemma frames_seen_all chain :
  Forall (fun pc => pc <> 0) chain -> frames_seen chain = chain.
Proof.
  unfold frames_seen. induction 1 as [|pc chain Hpc _ IH]; [reflexivity|].
  cbn [List.filter]. apply Z.eqb_neq in Hpc. rewrite Hpc. cbn [negb].
  rewrite IH. reflexivity.
Qed.

(** X2.  Every entry of the prefix [captureStackTrace] reports is the
    instruction pointer of a frame of the walk and is not null.  A frame
    whose pointer is null is skipped: it neither ends the walk nor takes up
    an entry, so the capture is what it would be without that frame.  And a
    walk of frames that all have a pointer, no longer than the buffer,
    is captured whole and in order. *)
Theorem captured_frames_are_not_null chain (buffer : array Z) (maxFrames : Z) :
  0 <= maxFrames <= len (cells buffer) ->
  let buffer' := (captureStackTrace chain buffer maxFrames).1 in
  let count := (captureStackTrace chain buffer maxFrames).2 in
  Forall (fun pc => pc ∈ chain /\ pc <> 0) (take (Z.to_nat count) (cells buffer'))
  /\ (forall pre post,
       captureStackTrace (pre ++ 0 :: post) buffer maxFrames
       = captureStackTrace (pre ++ post) buffer maxFrames)
  /\ (Forall (fun pc => pc <> 0) chain -> len chain <= maxFrames ->
       count = len chain /\ take (Z.to_nat count) (cells buffer') = chain).
Proof.
  intros H. cbv zeta. split; [|split].
  - rewrite (captureStackTrace_spec chain buffer maxFrames H).
    cbn [fst snd cells]. rewrite Nat2Z.id.
    rewrite take_app_le by (rewrite length_take; lia).
    rewrite take_take, Nat.min_id.
    apply Forall_forall. intros pc Hin.
    apply frames_seen_spec.
    rewrite <- (take_drop (Nat.min (Z.to_nat maxFrames) (length (frames_seen chain)))
                  (frames_seen chain)).
    apply elem_of_app. left. exact Hin.
  - intros pre post.
    rewrite (captureStackTrace_spec (pre ++ 0 :: post) buffer maxFrames H).
    rewrite (captureStackTrace_spec (pre ++ post) buffer maxFrames H).
    rewrite frames_seen_skips. reflexivity.
  - intros Hall Hshort.
    rewrite (captureStackTrace_spec chain buffer maxFrames H).
    rewrite (frames_seen_all chain Hall).
    cbn [fst snd cells]. unfold len in Hshort |- *.
    rewrite Nat.min_r by lia. rewrite Nat2Z.id.
    split; [reflexivity|].
    rewrite firstn_all. apply take_app_length.
Qed.

Lemma strrchr_last dir (c : ascii) base :
  c ∉ base -> strrchr (dir ++ c :: base) c = Some (length dir).
Proof.
  intros Hno.
  assert (strrchr base c = None) as Hb.
  { destruct (strrchr base c) as [k|] eqn:E; [|reflexivity].
    destruct (strrchr_Some _ _ _ E) as (Hs & _).
    exfalso. apply Hno. rewrite Hs. apply elem_of_app. right. apply elem_of_cons. auto. }
  induction dir as [|x dir IH]; cbn [app strrchr length].
  - rewrite Hb, Ascii.eqb_refl. reflexivity.
  - rewrite IH. reflexivity.
Qed.

(** X3.  For a containing file [dir/base], where [base] has no slash, the
    module of the frame is [base], however many slashes [dir] has; for a file
    name without any slash the module is the whole name. *)
Theorem module_is_base_name addr info :
  dladdr P addr = Some info ->
  (forall dir base,
     dli_fname info = Some (dir ++ "/"%char :: base) -> "/"%char ∉ base ->
     moduleName (resolve P addr) = base)
  /\ (forall fname,
       dli_fname info = Some fname -> "/"%char ∉ fname ->
       moduleName (resolve P addr) = fname).
Proof.
  intros Hd. unfold resolve. rewrite Hd. cbn [moduleName]. split.
  - intros dir base Hf Hno. rewrite Hf, (strrchr_last dir _ base Hno).
    replace (S (length dir)) with (length (dir ++ ["/"%char]))
      by (rewrite length_app; simpl; lia).
    replace (dir ++ "/"%char :: base) with ((dir ++ ["/"%char]) ++ base)
      by (rewrite <- app_assoc; reflexivity).
    apply drop_app_length.
  - intros fname Hf Hno. rewrite Hf.
    destruct (strrchr fname "/"%char) as [k|] eqn:E; [|reflexivity].
    destruct (strrchr_Some _ _ _ E) as (Hs & _).
    exfalso. apply Hno. rewrite Hs. apply elem_of_app. right. apply elem_of_cons. auto.
Qed.

(** ** The frame list, whatever the lengths *)

Lemma size_t_id z : 0 <= z < SIZE_MODULUS P -> size_t P z = z.
Proof. intros H. unfold size_t. apply Z.mod_small. exact H. Qed.

Lemma size_t_wrap z :
  - SIZE_MODULUS P <= z < 0 -> size_t P z = z + SIZE_MODULUS P.
Proof.
  intros H. unfold size_t. symmetry.
  apply (Z.mod_unique_pos z (SIZE_MODULUS P) (-1)); lia.
Qed.

Lemma cstring_bound cs k : cs !! k = Some NUL -> (length (cstring cs) <= k)%nat.
Proof.
  revert k; induction cs as [|c cs IH]; intros k H; [discriminate|].
  cbn [cstring]. destruct (Ascii.eqb c NUL) eqn:E; [cbn; lia|].
  destruct k as [|k]; cbn in H.
  - injection H as ->. rewrite Ascii.eqb_refl in E. discriminate.
  - cbn [length]. specialize (IH k H). lia.
Qed.

Lemma snprintf_within cs sp dst n s :
  0 <= dst -> 0 < n -> dst + n <= len cs ->
  let out := snprintf {| cells := cs; spill := sp |} dst n s in
  len (cells out.1) = len cs /\ spill out.1 = sp /\ out.2 = len s
  /\ cells out.1 !! Z.to_nat (dst + Z.min (len s) (n - 1)) = Some NUL.
Proof.
  intros Hd Hn Hroom. unfold snprintf.
  destruct (n =? 0) eqn:E; [apply Z.eqb_eq in E; lia|]. cbn [fst snd].
  set (k := Z.to_nat (Z.min (len s) (n - 1))).
  assert (length (take k s) = k) as Hk
    by (rewrite length_take; unfold k, len; lia).
  assert (length (take k s ++ [NUL]) = S k) as Hk'
    by (rewrite length_app, Hk; cbn; lia).
  unfold len in Hroom.
  rewrite <- (take_drop (Z.to_nat dst) cs).
  rewrite <- (take_drop (S k) (drop (Z.to_nat dst) cs)).
  assert (length (take (Z.to_nat dst) cs) = Z.to_nat dst) as Hpre
    by (rewrite length_take; lia).
  assert (length (take (S k) (drop (Z.to_nat dst) cs)) = S k) as Hold
    by (rewrite length_take, length_drop; unfold k, len; lia).
  rewrite (store_bytes_in_place (take k s ++ [NUL])); cbn [cells spill].
  - split; [|split; [reflexivity|split; [reflexivity|]]].
    + unfold len. rewrite !length_app. cbn [length]. rewrite Hk, Hold. lia.
    + replace (Z.to_nat (dst + Z.min (len s) (n - 1))) with (Z.to_nat dst + k)%nat
        by (unfold k, len; lia).
      rewrite lookup_app_r by lia. rewrite Hpre.
      replace (Z.to_nat dst + k - Z.to_nat dst)%nat with k by lia.
      rewrite lookup_app_l by lia.
      rewrite lookup_app_r by lia. rewrite Hk, Nat.sub_diag. reflexivity.
  - rewrite Hk', Hold. reflexivity.
  - unfold len. rewrite Hpre. lia.
Qed.

Lemma store_bytes_outside {A} (cs : list A) sp (p : Z) (s : list A) :
  len cs <= p ->
  store_bytes {| cells := cs; spill := sp |} p s
  = {| cells := cs; spill := sp ++ imap (fun i x => (p + Z.of_nat i, x)) s |}.
Proof.
  intros H. unfold store_bytes, len in *. cbn [cells spill].
  destruct (p <? 0) eqn:E; [apply Z.ltb_lt in E; lia|].
  replace (length cs - Z.to_nat p)%nat with 0%nat by lia.
  rewrite take_ge by lia. rewrite (drop_ge cs) by lia.
  cbn [take drop]. rewrite !app_nil_r. reflexivity.
Qed.

Section Lengths.

Context (bufferSize : Z) (frames : list Z).
Hypothesis size_ok : 256 <= bufferSize < SIZE_MODULUS P.

Lemma format_frame_keeps i addr cs sp offset :
  len cs = bufferSize -> 0 <= offset < bufferSize - 256 ->
  len (frame_piece P i addr) < SIZE_MODULUS P - bufferSize ->
  let out := format_frame P i addr bufferSize {| cells := cs; spill := sp |} offset in
  len (cells out.1) = bufferSize /\ spill out.1 = sp
  /\ out.2 = offset + len (frame_piece P i addr)
  /\ cells out.1 !! Z.to_nat (Z.min out.2 (bufferSize - 1)) = Some NUL.
Proof.
  intros Hl Ho Hs. unfold format_frame, frame_piece in *.
  pose proof (len_nonneg (frame_text P i addr)) as Ht.
  destruct (0 <? i).
  - rewrite len_app in Hs. change (len (T ",")) with 1 in Hs.
    rewrite (size_t_id (bufferSize - offset)) by lia.
    pose proof (snprintf_within cs sp offset (bufferSize - offset) (T ",")) as H1.
    destruct (snprintf _ offset _ (T ",")) as [[cs1 sp1] r1].
    cbn [fst snd cells spill] in H1.
    destruct H1 as (Hl1 & -> & -> & _); [lia..|].
    change (len (T ",")) with 1. rewrite (size_t_id (offset + 1)) by lia.
    rewrite (size_t_id (bufferSize - (offset + 1))) by lia.
    pose proof (snprintf_within cs1 sp (offset + 1) (bufferSize - (offset + 1))
                  (frame_text P i addr)) as H2.
    destruct (snprintf _ (offset + 1) _ (frame_text P i addr)) as [[cs2 sp2] r2].
    cbn [fst snd cells spill] in *.
    destruct H2 as (Hl2 & -> & -> & Hnul); [lia..|].
    rewrite (size_t_id (offset + 1 + _)) by lia.
    rewrite len_app. change (len (T ",")) with 1.
    split; [lia|]. split; [reflexivity|]. split; [lia|].
    rewrite <- Hnul. f_equal. lia.
  - cbn [app] in *.
    rewrite (size_t_id (bufferSize - offset)) by lia.
    pose proof (snprintf_within cs sp offset (bufferSize - offset)
                  (frame_text P i addr)) as H2.
    destruct (snprintf _ offset _ (frame_text P i addr)) as [[cs2 sp2] r2].
    cbn [fst snd cells spill] in *.
    destruct H2 as (Hl2 & -> & -> & Hnul); [lia..|].
    rewrite (size_t_id (offset + _)) by lia.
    split; [lia|]. split; [reflexivity|]. split; [lia|].
    rewrite <- Hnul. f_equal. lia.
Qed.

Lemma format_frames_keeps n : forall i cs sp offset,
  len cs = bufferSize -> 0 <= offset -> offset + 1 < SIZE_MODULUS P ->
  cs !! Z.to_nat (Z.min offset (bufferSize - 1)) = Some NUL ->
  (forall j, i <= j < i + Z.of_nat n ->
     len (frame_piece P j (default 0 (frames !! Z.to_nat j)))
     < SIZE_MODULUS P - bufferSize) ->
  let out := format_frames P n i frames bufferSize {| cells := cs; spill := sp |} offset in
  len (cells out.1) = bufferSize /\ spill out.1 = sp
  /\ 0 <= out.2 /\ out.2 + 1 < SIZE_MODULUS P
  /\ cells out.1 !! Z.to_nat (Z.min out.2 (bufferSize - 1)) = Some NUL.
Proof.
  induction n as [|n IH]; intros i cs sp offset Hl Ho Hm Hnul Hs.
  - cbn. repeat split; assumption || lia.
  - cbn [format_frames].
    rewrite (size_t_id (bufferSize - 256)) by lia.
    destruct (offset <? bufferSize - 256) eqn:E.
    + apply Z.ltb_lt in E.
      set (addr := default 0 (frames !! Z.to_nat i)).
      assert (len (frame_piece P i addr) < SIZE_MODULUS P - bufferSize) as Hp
        by (apply Hs; lia).
      pose proof (len_nonneg (frame_piece P i addr)).
      pose proof (format_frame_keeps i addr cs sp offset Hl (conj Ho E) Hp) as F.
      destruct (format_frame P i addr bufferSize _ offset) as [[cs' sp'] offset'].
      cbn [fst snd cells spill] in F. destruct F as (Hl' & -> & -> & Hnul').
      apply IH; try assumption; try lia.
      intros j Hj. apply Hs. lia.
    + cbn [fst snd cells spill]. repeat split; assumption || lia.
Qed.

Lemma formatStackTraceJson_keeps cs sp (frameCount : Z) :
  len cs = bufferSize ->
  (forall j, 0 <= j < frameCount ->
     len (frame_piece P j (default 0 (frames !! Z.to_nat j)))
     < SIZE_MODULUS P - bufferSize) ->
  let out := formatStackTraceJson P {| cells := cs; spill := sp |} bufferSize
               frames frameCount in
  len (cells out.1) = bufferSize
  /\ (exists k, (k < length (cells out.1))%nat /\ cells out.1 !! k = Some NUL)
  /\ (out.2 - 1 <= bufferSize -> spill out.1 = sp)
  /\ (bufferSize < out.2 - 1 ->
      spill out.1 = sp ++ [(out.2 - 1, "]"%char); (out.2, NUL)]).
Proof.
  intros Hl Hs. unfold formatStackTraceJson.
  rewrite (size_t_id (bufferSize - 0)) by lia.
  pose proof (snprintf_within cs sp 0 (bufferSize - 0) (T "[")) as H0.
  destruct (snprintf _ 0 _ (T "[")) as [[cs0 sp0] r0].
  cbn [fst snd cells spill] in H0.
  destruct H0 as (Hl0 & -> & -> & Hnul0); [lia..|].
  change (len (T "[")) with 1 in *. rewrite (size_t_id (0 + 1)) by lia.
  pose proof (format_frames_keeps (Z.to_nat frameCount) 0 cs0 sp (0 + 1)) as F.
  destruct (format_frames P _ 0 frames bufferSize _ (0 + 1)) as [[cs1 sp1] offset1].
  cbn [fst snd cells spill] in F.
  destruct F as (Hl1 & -> & Ho1 & Hm1 & Hnul1).
  { lia. } { lia. } { lia. }
  { rewrite <- Hnul0. f_equal. lia. }
  { intros j Hj. apply Hs. lia. }
  assert (forall cs', len cs' = bufferSize ->
            cs' !! Z.to_nat (Z.min (offset1 + 1) (bufferSize - 1)) = Some NUL
            \/ cs' !! Z.to_nat (Z.min offset1 (bufferSize - 1)) = Some NUL ->
            exists k, (k < length cs')%nat /\ cs' !! k = Some NUL) as Hterm.
  { intros cs' Hl' [Hn|Hn]; eexists; (split; [|exact Hn]); unfold len in *; lia. }
  destruct (Z.lt_trichotomy offset1 bufferSize) as [Hlt|[Heq|Hgt]].
  - rewrite (size_t_id (bufferSize - offset1)) by lia.
    pose proof (snprintf_within cs1 sp offset1 (bufferSize - offset1) (T "]")) as H2.
    destruct (snprintf _ offset1 _ (T "]")) as [[cs2 sp2] r2].
    cbn [fst snd cells spill] in *.
    destruct H2 as (Hl2 & -> & -> & Hnul2); [lia..|].
    change (len (T "]")) with 1 in *. rewrite (size_t_id (offset1 + 1)) by lia.
    split; [lia|]. split; [|split; [reflexivity|lia]].
    apply Hterm; [lia|].
    destruct (Z.eq_dec offset1 (bufferSize - 1)).
    + right. rewrite <- Hnul2. f_equal. lia.
    + left. rewrite <- Hnul2. f_equal. lia.
  - subst offset1. rewrite Z.sub_diag.
    replace (size_t P 0) with 0 by (unfold size_t; rewrite Z.mod_0_l; lia).
    unfold snprintf. change (0 =? 0) with true. cbv iota. cbn [fst snd cells spill].
    change (len (T "]")) with 1. rewrite (size_t_id (bufferSize + 1)) by lia.
    split; [exact Hl1|]. split; [|split; [reflexivity|lia]].
    apply Hterm; [exact Hl1|]. right. exact Hnul1.
  - rewrite (size_t_wrap (bufferSize - offset1)) by lia.
    unfold snprintf.
    destruct (bufferSize - offset1 + SIZE_MODULUS P =? 0) eqn:E;
      [apply Z.eqb_eq in E; lia|].
    change (len (T "]")) with 1. rewrite Z.min_l by lia.
    change (take (Z.to_nat 1) (T "]") ++ [NUL]) with ["]"%char; NUL].
    rewrite store_bytes_outside by lia.
    cbn [fst snd cells spill imap]. rewrite (size_t_id (offset1 + 1)) by lia.
    split; [exact Hl1|]. split; [|split; [lia|]].
    + apply Hterm; [exact Hl1|]. right. exact Hnul1.
    + intros _. change (Z.of_nat 0) with 0. change (Z.of_nat 1) with 1.
      rewrite Z.add_0_r. replace (offset1 + 1 - 1) with offset1 by lia.
      reflexivity.
Qed.

(** X4.  Whatever the lengths of the module and symbol names,
    [formatStackTraceJson] leaves the array with its extent and with a NUL
    inside it, so that the string in it is shorter than the array; and the
    only stores that can miss the array are the two of the closing bracket
    and its terminator, at the offset the loop ended on, which happens
    exactly when that offset is beyond the size. *)
Theorem frame_list_overrun_is_two_bytes cs sp (frameCount : Z) :
  len cs = bufferSize ->
  (forall j, 0 <= j < frameCount ->
     len (frame_piece P j (default 0 (frames !! Z.to_nat j)))
     < SIZE_MODULUS P - bufferSize) ->
  let out := formatStackTraceJson P {| cells := cs; spill := sp |} bufferSize
               frames frameCount in
  len (cells out.1) = bufferSize
  /\ len (cstring (cells out.1)) < bufferSize
  /\ (out.2 - 1 <= bufferSize -> spill out.1 = sp)
  /\ (bufferSize < out.2 - 1 ->
      spill out.1 = sp ++ [(out.2 - 1, "]"%char); (out.2, NUL)]).
Proof.
  intros Hl Hs.
  destruct (formatStackTraceJson_keeps cs sp frameCount Hl Hs)
    as (Hlen & (k & Hk & Hnul) & Hin & Hout).
  cbv zeta. split; [exact Hlen|]. split; [|split; assumption].
  apply cstring_bound in Hnul. unfold len in *. lia.
Qed.

End Lengths.

(** ** The static arrays over whole runs *)

Lemma initialize_keeps callback malloced w :
  let w' := MoonForge_Android_InitializeCrashHandler P callback malloced w in
  crashJsonBuffer w' = crashJsonBuffer w /\ stackFrames w' = stackFrames w
  /\ stackFrameCount w' = stackFrameCount w /\ clobbered w' = clobbered w
  /\ isHandlingCrash w' = isHandlingCrash w /\ javaVM w' = javaVM w.
Proof.
  unfold MoonForge_Android_InitializeCrashHandler.
  destruct (isInitialized w =? 0); wsimpl; [|repeat split].
  pose proof (install_handlers_frame P (kSignalsToHandle P) (set_crashCallback callback w)) as F.
  unfold same_engine in F. wsimpl.
  destruct F as (_ & Hh & _ & Hv & Hj & Hs & Hc & _ & _ & Hcl & _).
  destruct (malloced =? 0); wsimpl; repeat split; assumption.
Qed.

Lemma shutdown_keeps w :
  let w' := MoonForge_Android_ShutdownCrashHandler P w in
  crashJsonBuffer w' = crashJsonBuffer w /\ stackFrames w' = stackFrames w
  /\ stackFrameCount w' = stackFrameCount w /\ clobbered w' = clobbered w
  /\ isHandlingCrash w' = isHandlingCrash w /\ javaVM w' = javaVM w
  /\ altstack w' = altstack w /\ heap w' = heap w
  /\ previousHandlers w' = previousHandlers w.
Proof.
  unfold MoonForge_Android_ShutdownCrashHandler.
  destruct (isInitialized w =? 0); [repeat split|].
  destruct (restore_handlers_frame P (kSignalsToHandle P) w) as (F & Hp & _).
  unfold same_engine in F.
  destruct F as (_ & Hh & _ & Hv & Hj & Hs & Hc & Ha & Hhp & Hcl & _).
  wsimpl. repeat split; assumption.
Qed.

Lemma signalHandler_keeps_arrays signal info d w :
  arrays_intact w -> arrays_intact (signalHandler P signal info d w).
Proof.
  intros I. destruct (Z.eq_dec (isHandlingCrash w) 0) as [Hg|Hg];
    [|rewrite signalHandler_guarded by assumption; exact I].
  destruct I as (Hjl & Hjs & _ & Hfl & Hfs & _).
  destruct (signalHandler_frames P signal info d w Hg) as (Hf & Hc).
  destruct (signalHandler_document P signal info d w Hg) as (_ & Hj).
  assert (0 <= MAX_FRAMES <= len (cells (stackFrames w))) as Hb
    by (rewrite Hfl; unfold MAX_FRAMES; lia).
  rewrite (captureStackTrace_spec (unwound d) (stackFrames w) MAX_FRAMES Hb) in Hf, Hc.
  cbn [fst snd] in Hf, Hc.
  unfold arrays_intact. rewrite Hf, Hc, Hj. cbn [cells spill].
  destruct (crashJsonBuffer w) as [cs sp]. cbn [cells spill] in *.
  match goal with |- context [snprintf ?m 0 32768 ?s] =>
    pose proof (snprintf_within cs sp 0 32768 s) as S;
    destruct (snprintf m 0 32768 s) as [[cs' sp'] r] end.
  cbn [fst snd cells spill] in *.
  destruct S as (Hl' & -> & _ & Hnul); [lia..|].
  apply cstring_bound in Hnul.
  split; [lia|]. split; [exact Hjs|]. split; [unfold len in *; lia|].
  unfold len in *. rewrite length_app, length_take, length_drop.
  unfold MAX_FRAMES in *. repeat split; try assumption; lia.
Qed.

Lemma step_keeps_arrays c w : arrays_intact w -> arrays_intact (step P c w).
Proof.
  intros I. destruct c as [vm|callback malloced| |signal info d]; cbn [step].
  - exact I.
  - destruct (initialize_keeps callback malloced w) as (Hj & Hs & Hc & _).
    unfold arrays_intact. rewrite Hj, Hs, Hc. exact I.
  - destruct (shutdown_keeps w) as (Hj & Hs & Hc & _).
    unfold arrays_intact. rewrite Hj, Hs, Hc. exact I.
  - apply signalHandler_keeps_arrays. exact I.
Qed.

(** X5.  From the start of a process on, whatever API calls and signal
    deliveries follow one another, the two static arrays keep their extents,
    no store ever misses [crashJsonBuffer] or [stackFrames], the document in
    [crashJsonBuffer] is a terminated string shorter than the array, however
    long the crash text was, and [stackFrameCount] stays between 0 and
    [MAX_FRAMES]. *)
Theorem static_arrays_stay_intact (dispositions : gmap Z sigaction_t) (cs : list call) :
  arrays_intact (run P cs (boot dispositions)).
Proof.
  assert (arrays_intact (boot dispositions)) as I0.
  { unfold arrays_intact, boot, fresh, len. cbn [crashJsonBuffer stackFrames stackFrameCount cells spill].
    rewrite !length_replicate.
    assert (cstring (replicate (Z.to_nat 32768) NUL) = []) as ->.
    { destruct (Z.to_nat 32768) eqn:E; [lia|]. reflexivity. }
    unfold MAX_FRAMES. cbn [length]. repeat split; lia. }
  revert I0. generalize (boot dispositions).
  induction cs as [|c cs IH]; intros w I; cbn [run]; [exact I|].
  apply IH, step_keeps_arrays, I.
Qed.

Lemma captured_lookup chain (old : list Z) (k j : nat) :
  (j < k)%nat -> (k <= length (frames_seen chain))%nat ->
  exists pc, (take k (frames_seen chain) ++ drop k old) !! j = Some pc /\ pc ∈ chain.
Proof.
  intros Hj Hk.
  destruct (lookup_lt_is_Some_2 (frames_seen chain) j) as [pc Hpc]; [lia|].
  exists pc. split.
  - rewrite lookup_app_l by (rewrite length_take; lia).
    rewrite lookup_take_lt by lia. exact Hpc.
  - apply list_elem_of_lookup_2 in Hpc. apply frames_seen_spec in Hpc. tauto.
Qed.

(** X6.  A run of the handler that passes the guard stores at most two
    bytes outside its automatic array [stackTraceJson], both beyond the end
    of the array, whatever the number of frames and the lengths of the names
    [dladdr] returns for them. *)
Theorem handler_clobbers_at_most_two_bytes signal info d w :
  isHandlingCrash w = 0 -> len (cells (stackFrames w)) = MAX_FRAMES ->
  16384 < SIZE_MODULUS P ->
  (forall j pc, 0 <= j < MAX_FRAMES -> pc ∈ unwound d ->
     len (frame_piece P j pc) < SIZE_MODULUS P - 16384) ->
  exists extra,
    clobbered (signalHandler P signal info d w) = clobbered w ++ extra
    /\ (length extra <= 2)%nat
    /\ forall p c, (p, c) ∈ extra -> 16384 < p.
Proof.
  intros Hg Hfl Hm Hs.
  destruct (signalHandler_document P signal info d w Hg) as (Hc & _).
  assert (0 <= MAX_FRAMES <= len (cells (stackFrames w))) as Hb
    by (rewrite Hfl; unfold MAX_FRAMES; lia).
  rewrite (captureStackTrace_spec (unwound d) (stackFrames w) MAX_FRAMES Hb) in Hc.
  cbn [fst snd cells] in Hc.
  set (k := Nat.min (Z.to_nat MAX_FRAMES) (length (frames_seen (unwound d)))) in *.
  assert (256 <= 16384 < SIZE_MODULUS P) as Hsz by lia.
  match type of Hc with context [formatStackTraceJson P ?m 16384 ?fr ?n] =>
    pose proof (formatStackTraceJson_keeps 16384 fr Hsz
                  (resize (Z.to_nat 16384) NUL (junk d)) [] n) as K end.
  unfold fresh in Hc. cbv zeta in K.
  destruct K as (_ & _ & Hin & Hout).
  - unfold len. rewrite length_resize. lia.
  - intros j Hj.
    destruct (captured_lookup (unwound d) (cells (stackFrames w)) k (Z.to_nat j))
      as (pc & -> & Hpc); [lia|unfold k; lia|].
    apply Hs; [unfold MAX_FRAMES in *; lia|exact Hpc].
  - match type of Hc with context [formatStackTraceJson P ?m 16384 ?fr ?n] =>
      set (out := formatStackTraceJson P m 16384 fr n) in * end.
    destruct (Z_le_gt_dec (out.2 - 1) 16384) as [Hle|Hgt].
    + exists []. rewrite Hc, (Hin Hle). split; [reflexivity|]. split; [cbn; lia|].
      intros p c H. apply elem_of_nil in H. contradiction.
    + exists [(out.2 - 1, "]"%char); (out.2, NUL)].
      rewrite Hc, Hout by lia. split; [reflexivity|]. split; [cbn; lia|].
      intros p c H. rewrite !elem_of_cons in H.
      destruct H as [H|[H|H]]; [injection H as -> _; lia|injection H as -> _; lia|].
      apply elem_of_nil in H. contradiction.
Qed.

(** ** How the calls compose *)

Lemma shutdown_of_initialized w :
  isInitialized w <> 0 ->
  let w' := MoonForge_Android_ShutdownCrashHandler P w in
  disposition w' = disposition (restore_handlers P (kSignalsToHandle P) w)
  /\ crashCallback w' = 0 /\ isInitialized w' = 0.
Proof.
  intros H. unfold MoonForge_Android_ShutdownCrashHandler.
  destruct (isInitialized w =? 0) eqn:E; [apply Z.eqb_eq in E; contradiction|].
  wsimpl. repeat split.
Qed.

Lemma shutdown_clears_initialized w :
  isInitialized (MoonForge_Android_ShutdownCrashHandler P w) = 0.
Proof.
  destruct (Z.eq_dec (isInitialized w) 0) as [H|H].
  - unfold MoonForge_Android_ShutdownCrashHandler. rewrite H. exact H.
  - apply shutdown_of_initialized. exact H.
Qed.

Lemma initialize_trace callback malloced w :
  invocations (trace (MoonForge_Android_InitializeCrashHandler P callback malloced w))
  = invocations (trace w).
Proof.
  unfold MoonForge_Android_InitializeCrashHandler.
  destruct (isInitialized w =? 0); wsimpl.
  - pose proof (install_handlers_frame P (kSignalsToHandle P) (set_crashCallback callback w)) as F.
    unfold same_engine in F. wsimpl.
    destruct F as (_ & _ & _ & _ & _ & _ & _ & _ & _ & _ & Hi).
    destruct (malloced =? 0); wsimpl; rewrite invocations_app; cbn [invocations]; lia.
  - rewrite invocations_app; cbn [invocations]. lia.
Qed.

(** X7.  [initialize] followed by [shutdown] is a round trip on the signal
    dispositions: every signal number has again the action it had before
    [initialize], whether or not [sigaction] accepted it; the engine is then
    not initialised and has no callback. *)
Theorem initialize_then_shutdown_restores callback malloced w :
  isInitialized w = 0 -> NoDup (kSignalsToHandle P) ->
  let w' := MoonForge_Android_ShutdownCrashHandler P
              (MoonForge_Android_InitializeCrashHandler P callback malloced w) in
  (forall sig, table_get (disposition w') sig = table_get (disposition w) sig)
  /\ isInitialized w' = 0 /\ crashCallback w' = 0.
Proof.
  intros Hi Hnd.
  destruct (initialize_fresh P callback malloced w Hi) as (Hi1 & _ & _ & Hd1 & Hp1 & _).
  set (w1 := MoonForge_Android_InitializeCrashHandler P callback malloced w) in *.
  destruct (shutdown_of_initialized w1) as (Hd & Hc & Hi2); [rewrite Hi1; discriminate|].
  cbv zeta. split; [|split; assumption].
  intros sig. unfold table_get at 1. rewrite Hd, restore_handlers_disposition.
  unfold table_get at 1. rewrite Hp1, Hd1.
  rewrite install_handlers_previous, install_handlers_disposition by assumption.
  destruct (bool_decide (sig ∈ kSignalsToHandle P) && negb (sigaction_fails P sig));
    reflexivity.
Qed.

(** X8.  The handler does not mark the engine as shut down: after a crash
    was handled the engine still reports itself initialised, so a call of
    [initialize] without a [shutdown] before it installs nothing, and the
    crashed signal keeps the restored disposition instead of the engine's
    handler. *)
Theorem initialize_after_crash_does_not_rearm signal info d callback malloced w :
  isInitialized w <> 0 -> isHandlingCrash w = 0 -> sigaction_fails P signal = false ->
  let w1 := signalHandler P signal info d w in
  let w2 := MoonForge_Android_InitializeCrashHandler P callback malloced w1 in
  MoonForge_Android_IsInitialized w1 = isInitialized w
  /\ disposition w2 !! signal = Some (table_get (previousHandlers w) signal)
  /\ crashCallback w2 = crashCallback w.
Proof.
  intros Hi Hg Hok.
  destruct (signalHandler_passes P signal info d w Hg) as (_ & _ & Hc & Hi1 & Hd & _).
  rewrite Hok in Hd. cbv zeta. unfold MoonForge_Android_IsInitialized.
  split; [exact Hi1|].
  unfold MoonForge_Android_InitializeCrashHandler.
  destruct (isInitialized (signalHandler P signal info d w) =? 0) eqn:E;
    [apply Z.eqb_eq in E; congruence|].
  wsimpl. rewrite Hd, Hc. split; [apply lookup_insert_eq|reflexivity].
Qed.

(** X9.  [shutdown] and [initialize] after a handled crash install the
    engine's handler again, so the kernel runs [signalHandler] for every
    accepted signal of the set, but they do not clear the guard: the handler,
    entered for any signal, returns at once, without report, without
    restoring a disposition and without raising the signal again, and a
    delivery leaves the world as it found it. *)
Theorem rearming_after_crash_is_inert callback malloced w (sig : Z) signal info d :
  isHandlingCrash w <> 0 -> sig ∈ kSignalsToHandle P -> sigaction_fails P sig = false ->
  let w1 := MoonForge_Android_InitializeCrashHandler P callback malloced
              (MoonForge_Android_ShutdownCrashHandler P w) in
  disposition w1 !! sig
  = Some {| sa_handler := fn_signalHandler;
            sa_flags := Z.lor (SA_SIGINFO P) (SA_ONSTACK P);
            sa_mask := 0 |}
  /\ deliver P sig info d w1 = runs_engine w1
  /\ isInitialized w1 = 1
  /\ signalHandler P signal info d w1 = w1.
Proof.
  intros Hg Hin Hok.
  pose proof (shutdown_clears_initialized w) as H0.
  destruct (shutdown_keeps w) as (_ & _ & _ & _ & Hg1 & _).
  set (w0 := MoonForge_Android_ShutdownCrashHandler P w) in *.
  destruct (initialize_fresh P callback malloced w0 H0) as (Hi & _ & Hg2 & _).
  destruct (initialize_installs P callback malloced w0 sig H0 Hin Hok) as (Hs & Hdel & _).
  assert (forall signal', signalHandler P signal' info d
            (MoonForge_Android_InitializeCrashHandler P callback malloced w0)
          = MoonForge_Android_InitializeCrashHandler P callback malloced w0) as Hinert.
  { intros signal'. apply signalHandler_guarded. rewrite Hg2.
    cbn [isHandlingCrash set_crashCallback]. rewrite Hg1. exact Hg. }
  cbv zeta. split; [exact Hs|]. split; [|split; [exact Hi|apply Hinert]].
  rewrite Hdel, Hinert. reflexivity.
Qed.

(** X10.  The callback given to [initialize] is the one a crash enters, once,
    with the finished document; a null callback is accepted, the handlers
    are installed all the same, and a crash is then logged and delegated
    without any callback being entered. *)
Theorem callback_entered_iff_registered callback malloced signal info d w :
  isInitialized w = 0 -> isHandlingCrash w = 0 ->
  let w1 := MoonForge_Android_InitializeCrashHandler P callback malloced w in
  let w2 := signalHandler P signal info d w1 in
  crashCallback w1 = callback
  /\ invocations (trace w2)
     = (invocations (trace w) + (if (callback =? 0)%Z then 0 else 1))%nat
  /\ (callback <> 0 -> Callback callback (report P signal info d w1) ∈ trace w2)
  /\ (exists a, last (trace w2) = Some (Raise signal a))
  /\ Logcat ANDROID_LOG_ERROR LOG_TAG
       (T "Caught signal " ++ fmt_d signal ++ T " (" ++ signalName P signal ++ T ")")
     ∈ trace w2.
Proof.
  intros Hi Hg.
  destruct (initialize_fresh P callback malloced w Hi) as (_ & Hc & Hg1 & _).
  pose proof (initialize_trace callback malloced w) as Ht.
  set (w1 := MoonForge_Android_InitializeCrashHandler P callback malloced w) in *.
  rewrite Hg in Hg1.
  destruct (signalHandler_passes P signal info d w1 Hg1) as (_ & _ & _ & _ & _ & Htr).
  cbv zeta. rewrite Htr, Hc. split; [reflexivity|]. split; [|split; [|split]].
  - rewrite !invocations_app, Ht.
    destruct (callback =? 0); cbn [invocations]; lia.
  - intros Hne. apply Z.eqb_neq in Hne. rewrite Hne.
    rewrite !elem_of_app. right. right. left. apply list_elem_of_singleton. reflexivity.
  - eexists. rewrite !app_assoc. apply last_snoc.
  - rewrite !elem_of_app. right. left. apply list_elem_of_singleton. reflexivity.
Qed.

(** X11.  [shutdown] gives back neither the alternate stack nor its region:
    the stack set by [initialize] is still the thread's alternate stack
    after [shutdown], and a second [initialize] obtains a second region and
    replaces the stack, the first region staying allocated. *)
Theorem alternate_stack_regions_accumulate callback1 malloced1 callback2 malloced2 w :
  isInitialized w = 0 -> malloced1 <> 0 -> malloced2 <> 0 ->
  let w1 := MoonForge_Android_InitializeCrashHandler P callback1 malloced1 w in
  let w2 := MoonForge_Android_ShutdownCrashHandler P w1 in
  let w3 := MoonForge_Android_InitializeCrashHandler P callback2 malloced2 w2 in
  altstack w2 = Some {| ss_sp := malloced1; ss_flags := 0; ss_size := SIGSTKSZ P |}
  /\ heap w2 = heap w ++ [(malloced1, SIGSTKSZ P)]
  /\ altstack w3 = Some {| ss_sp := malloced2; ss_flags := 0; ss_size := SIGSTKSZ P |}
  /\ heap w3 = heap w ++ [(malloced1, SIGSTKSZ P); (malloced2, SIGSTKSZ P)].
Proof.
  intros Hi H1 H2. apply Z.eqb_neq in H1, H2.
  destruct (initialize_fresh P callback1 malloced1 w Hi) as (_ & _ & _ & _ & _ & _ & Ha1 & Hh1).
  rewrite H1 in Ha1, Hh1.
  set (w1 := MoonForge_Android_InitializeCrashHandler P callback1 malloced1 w) in *.
  destruct (shutdown_keeps w1) as (_ & _ & _ & _ & _ & _ & Ha2 & Hh2 & _).
  pose proof (shutdown_clears_initialized w1) as H0.
  set (w2 := MoonForge_Android_ShutdownCrashHandler P w1) in *.
  destruct (initialize_fresh P callback2 malloced2 w2 H0) as (_ & _ & _ & _ & _ & _ & Ha3 & Hh3).
  rewrite H2 in Ha3, Hh3.
  subst w2 w1. cbv zeta. rewrite Ha3, Hh3, Ha2, Hh2, Ha1, Hh1, <- app_assoc.
  repeat split.
Qed.

(** ** The JNI side *)

Lemma install_handlers_javaVM vm sigs w :
  install_handlers P sigs (set_javaVM vm w) = set_javaVM vm (install_handlers P sigs w).
Proof.
  revert w; induction sigs as [|sig rest IH]; intros w; cbn [install_handlers]; [reflexivity|].
  rewrite <- IH. f_equal.
  unfold install_handler, sigaction. destruct (sigaction_fails P sig); reflexivity.
Qed.

Lemma restore_handlers_javaVM vm sigs w :
  restore_handlers P sigs (set_javaVM vm w) = set_javaVM vm (restore_handlers P sigs w).
Proof.
  revert w; induction sigs as [|sig rest IH]; intros w; cbn [restore_handlers]; [reflexivity|].
  rewrite <- IH. f_equal.
  unfold restore_handler, sigaction. destruct (sigaction_fails P sig); reflexivity.
Qed.

(** X12.  The Java VM reference is stored and never read: setting it before
    or after [initialize], [shutdown] or a run of the handler gives the same
    world, and [JNI_OnLoad] stores it, answers [JNI_VERSION_1_6] and
    installs nothing. *)
Theorem javaVM_is_never_read vm w :
  (forall callback malloced,
     MoonForge_Android_InitializeCrashHandler P callback malloced (MoonForge_Android_SetJavaVM vm w)
     = MoonForge_Android_SetJavaVM vm (MoonForge_Android_InitializeCrashHandler P callback malloced w))
  /\ MoonForge_Android_ShutdownCrashHandler P (MoonForge_Android_SetJavaVM vm w)
     = MoonForge_Android_SetJavaVM vm (MoonForge_Android_ShutdownCrashHandler P w)
  /\ (forall signal info d,
       signalHandler P signal info d (MoonForge_Android_SetJavaVM vm w)
       = MoonForge_Android_SetJavaVM vm (signalHandler P signal info d w))
  /\ (JNI_OnLoad vm w).2 = JNI_VERSION_1_6
  /\ javaVM (JNI_OnLoad vm w).1 = vm
  /\ disposition (JNI_OnLoad vm w).1 = disposition w
  /\ isInitialized (JNI_OnLoad vm w).1 = isInitialized w.
Proof.
  unfold MoonForge_Android_SetJavaVM.
  split; [|split; [|split; [|repeat split]]].
  - intros callback malloced. unfold MoonForge_Android_InitializeCrashHandler.
    change (isInitialized (set_javaVM vm w)) with (isInitialized w).
    destruct (isInitialized w =? 0); cbn [negb]; [|reflexivity].
    change (set_crashCallback callback (set_javaVM vm w))
      with (set_javaVM vm (set_crashCallback callback w)).
    rewrite install_handlers_javaVM.
    destruct (malloced =? 0); reflexivity.
  - unfold MoonForge_Android_ShutdownCrashHandler.
    change (isInitialized (set_javaVM vm w)) with (isInitialized w).
    destruct (isInitialized w =? 0); [reflexivity|].
    rewrite restore_handlers_javaVM. reflexivity.
  - intros signal info d. unfold signalHandler.
    change (isHandlingCrash (set_javaVM vm w)) with (isHandlingCrash w).
    destruct (isHandlingCrash w =? 0); cbn [negb]; [|reflexivity].
    wsimpl.
    destruct (captureStackTrace _ _ _) as [frames count]. wsimpl.
    destruct (formatStackTraceJson _ _ _ _ _) as [stj off]. wsimpl.
    destruct (snprintf _ _ _ _) as [json r]. wsimpl.
    unfold sigaction.
    destruct (crashCallback w =? 0), (sigaction_fails P signal); reflexivity.
Qed.

(** X13.  [nativeSimulateCrash] provokes a fault only in a build without
    [NDEBUG] and only for the crash types 0, 1 and 2 (a store through the
    null pointer, [abort], a store to address 1); in every other case it only
    logs.  Neither it nor [nativeInit] changes the engine: dispositions,
    saved table, callback and both flags are as before, so [nativeInit] does
    not initialise the handler. *)
Theorem jni_hooks_leave_engine_alone (NDEBUG : bool) (crashType : Z) w :
  let out := Java_com_moonforge_errortracking_CrashHandler_nativeSimulateCrash
               NDEBUG crashType w in
  let w' := Java_com_moonforge_errortracking_CrashHandler_nativeInit w in
  (is_Some out.2 <-> NDEBUG = false /\ (crashType = 0 \/ crashType = 1 \/ crashType = 2))
  /\ (NDEBUG = false ->
      (crashType = 0 -> out.2 = Some (store_int 0 42))
      /\ (crashType = 1 -> out.2 = Some call_abort)
      /\ (crashType = 2 -> out.2 = Some (store_char 1 42)))
  /\ (disposition out.1 = disposition w /\ previousHandlers out.1 = previousHandlers w
      /\ crashCallback out.1 = crashCallback w /\ isInitialized out.1 = isInitialized w
      /\ isHandlingCrash out.1 = isHandlingCrash w)
  /\ (disposition w' = disposition w /\ previousHandlers w' = previousHandlers w
      /\ crashCallback w' = crashCallback w /\ isInitialized w' = isInitialized w
      /\ isHandlingCrash w' = isHandlingCrash w).
Proof.
  cbv zeta. unfold Java_com_moonforge_errortracking_CrashHandler_nativeSimulateCrash,
    Java_com_moonforge_errortracking_CrashHandler_nativeInit.
  destruct NDEBUG; cbn [negb].
  - wsimpl. split; [|split; [discriminate|repeat split]].
    split; [intros [x Hx]; discriminate|intros [H _]; discriminate].
  - destruct (crashType =? 0) eqn:E0; [apply Z.eqb_eq in E0|apply Z.eqb_neq in E0].
    { wsimpl. subst. split; [split; [auto|intros _; eexists; reflexivity]|].
      split; [intros _; repeat split; intros; try reflexivity; lia|repeat split]. }
    destruct (crashType =? 1) eqn:E1; [apply Z.eqb_eq in E1|apply Z.eqb_neq in E1].
    { wsimpl. subst. split; [split; [auto|intros _; eexists; reflexivity]|].
      split; [intros _; repeat split; intros; try reflexivity; lia|repeat split]. }
    destruct (crashType =? 2) eqn:E2; [apply Z.eqb_eq in E2|apply Z.eqb_neq in E2].
    { wsimpl. subst. split; [split; [auto|intros _; eexists; reflexivity]|].
      split; [intros _; repeat split; intros; try reflexivity; lia|repeat split]. }
    wsimpl. split; [split; [intros [x Hx]; discriminate|intros [_ H]; lia]|].
    split; [intros _; repeat split; intros; lia|repeat split].
Qed.

(** ** What initialise saves and what the handler writes *)

(** X14.  [initialize] on an engine that is not initialised saves, for every
    signal of the set that [sigaction] accepts, the action that was
    installed when it was called, before installing its own; the saved
    entry of every other signal number, a refused one included, is left as
    it was. *)
Theorem initialize_saves_what_it_replaces callback malloced w (sig : Z) :
  isInitialized w = 0 -> NoDup (kSignalsToHandle P) ->
  let w' := MoonForge_Android_InitializeCrashHandler P callback malloced w in
  (sig ∈ kSignalsToHandle P -> sigaction_fails P sig = false ->
     previousHandlers w' !! sig = Some (table_get (disposition w) sig))
  /\ (sig ∉ kSignalsToHandle P \/ sigaction_fails P sig = true ->
      previousHandlers w' !! sig = previousHandlers w !! sig).
Proof.
  intros Hi Hnd.
  destruct (initialize_fresh P callback malloced w Hi) as (_ & _ & _ & _ & Hp & _).
  cbv zeta. rewrite Hp, install_handlers_previous by assumption. split.
  - intros Hin Hok. rewrite bool_decide_eq_true_2, Hok by assumption. reflexivity.
  - intros [Hout|Hfail].
    + rewrite bool_decide_eq_false_2 by assumption. reflexivity.
    + rewrite Hfail, andb_false_r. reflexivity.
Qed.

(** X15.  When the crash text, frame list included, is shorter than
    [crashJsonBuffer], the handler leaves exactly that text in the buffer,
    followed by its terminator: the document given to the callback is not
    cut. *)
Theorem handler_writes_whole_document signal info d w :
  isHandlingCrash w = 0 -> len (cells (crashJsonBuffer w)) = 32768 ->
  let captured := captureStackTrace (unwound d) (stackFrames w) MAX_FRAMES in
  let stackTraceJson :=
    (formatStackTraceJson P (fresh (resize (Z.to_nat 16384) NUL (junk d))) 16384
       (cells captured.1) captured.2).1 in
  let text :=
    crash_text P signal info (match info with Some i => si_addr i | None => 0 end)
      (self d) (cells stackTraceJson) in
  len text < 32768 ->
  exists rest,
    cells (crashJsonBuffer (signalHandler P signal info d w)) = text ++ NUL :: rest.
Proof.
  intros Hg Hl captured stackTraceJson text Hshort.
  destruct (signalHandler_document P signal info d w Hg) as (_ & Hj).
  fold captured stackTraceJson text in Hj. rewrite Hj.
  destruct (crashJsonBuffer w) as [cs sp]. cbn [cells] in Hl.
  pose proof (snprintf_fits [] cs sp 0 32768 text eq_refl (eq_sym Hl) Hshort) as S.
  cbn [app] in S. rewrite S.
  cbn [fst cells]. eexists. reflexivity.
Qed.

End Further.

(** * The further properties at concrete inputs *)

Lemma signal_tables_cover_handled_set_witness :
  (99 ∉ kSignalsToHandle arm64) /\ signalName arm64 99 = T "UNKNOWN".
Proof.
  assert (99 ∉ kSignalsToHandle arm64) as H
    by (apply (bool_decide_unpack _); vm_compute; exact I).
  split; [exact H|].
  exact (proj2 (proj1 (signal_tables_cover_handled_set arm64 99)) H).
Defined.

Lemma captured_frames_are_not_null_witness :
  0 <= 2 <= len (cells (fresh [1; 2; 3]))
  /\ captureStackTrace [0x7000001234; 0; 0x7100000040] (fresh [1; 2; 3]) 2
     = captureStackTrace [0x7000001234; 0x7100000040] (fresh [1; 2; 3]) 2
  /\ Forall (fun pc => pc <> 0) [0x7000001234; 0x7100000040]
  /\ len [0x7000001234; 0x7100000040] <= 2
  /\ (captureStackTrace [0x7000001234; 0x7100000040] (fresh [1; 2; 3]) 2).2 = 2
  /\ take 2 (cells (captureStackTrace [0x7000001234; 0x7100000040] (fresh [1; 2; 3]) 2).1)
     = [0x7000001234; 0x7100000040].
Proof.
  assert (0 <= 2 <= len (cells (fresh [1; 2; 3]))) as H by (vm_compute; split; discriminate).
  assert (Forall (fun pc => pc <> 0) [0x7000001234; 0x7100000040]) as Hall
    by (repeat constructor; discriminate).
  assert (len [0x7000001234; 0x7100000040] <= 2) as Hshort by (vm_compute; discriminate).
  split; [exact H|].
  destruct (captured_frames_are_not_null [0x7000001234; 0x7100000040] (fresh [1; 2; 3]) 2 H)
    as (_ & Hskip & Hwhole).
  split; [exact (Hskip [0x7000001234] [0x7100000040])|].
  split; [exact Hall|]. split; [exact Hshort|].
  destruct (Hwhole Hall Hshort) as (Hc & Ht).
  split; [exact Hc|]. rewrite Hc in Ht. exact Ht.
Defined.

Lemma module_is_base_name_witness :
  dladdr arm64 0x7000001234 = Some libil2cpp
  /\ dli_fname libil2cpp
     = Some (T "/data/app/com.example.game/lib/arm64" ++ "/"%char :: T "libil2cpp.so")
  /\ ("/"%char ∉ T "libil2cpp.so")
  /\ moduleName (resolve arm64 0x7000001234) = T "libil2cpp.so".
Proof.
  assert (dladdr arm64 0x7000001234 = Some libil2cpp) as Hd by reflexivity.
  assert (dli_fname libil2cpp
          = Some (T "/data/app/com.example.game/lib/arm64" ++ "/"%char :: T "libil2cpp.so"))
    as Hf by reflexivity.
  assert ("/"%char ∉ T "libil2cpp.so") as Hno
    by (apply (bool_decide_unpack _); vm_compute; exact I).
  split; [exact Hd|]. split; [exact Hf|]. split; [exact Hno|].
  exact (proj1 (module_is_base_name arm64 0x7000001234 libil2cpp Hd) _ _ Hf Hno).
Defined.

Lemma frame_list_overrun_is_two_bytes_witness :
  256 <= 260 < SIZE_MODULUS arm64_long_symbols
  /\ len short_cells = 260
  /\ 260 < (formatStackTraceJson arm64_long_symbols {| cells := short_cells; spill := [] |}
              260 [0x7000001234] 1).2 - 1
  /\ spill (formatStackTraceJson arm64_long_symbols {| cells := short_cells; spill := [] |}
              260 [0x7000001234] 1).1
     = [] ++ [((formatStackTraceJson arm64_long_symbols {| cells := short_cells; spill := [] |}
                  260 [0x7000001234] 1).2 - 1, "]"%char);
              ((formatStackTraceJson arm64_long_symbols {| cells := short_cells; spill := [] |}
                  260 [0x7000001234] 1).2, NUL)].
Proof.
  assert (256 <= 260 < SIZE_MODULUS arm64_long_symbols) as Hb
    by (vm_compute; split; [discriminate|reflexivity]).
  assert (len short_cells = 260) as Hl by (vm_compute; reflexivity).
  assert (forall j, 0 <= j < 1 ->
            len (frame_piece arm64_long_symbols j (default 0 ([0x7000001234] !! Z.to_nat j)))
            < SIZE_MODULUS arm64_long_symbols - 260) as Hs.
  { intros j Hj. assert (j = 0) as -> by lia. vm_compute. reflexivity. }
  assert (260 < (formatStackTraceJson arm64_long_symbols {| cells := short_cells; spill := [] |}
                   260 [0x7000001234] 1).2 - 1) as Hover by (vm_compute; reflexivity).
  split; [exact Hb|]. split; [exact Hl|]. split; [exact Hover|].
  exact (proj2 (proj2 (proj2
           (frame_list_overrun_is_two_bytes arm64_long_symbols 260 [0x7000001234] Hb
              short_cells [] 1 Hl Hs))) Hover).
Defined.

Lemma handler_clobbers_at_most_two_bytes_witness :
  isHandlingCrash armed_long_symbols = 0
  /\ len (cells (stackFrames armed_long_symbols)) = MAX_FRAMES
  /\ 16384 < SIZE_MODULUS arm64_long_symbols
  /\ exists extra,
       clobbered (signalHandler arm64_long_symbols 11 (Some segv_at_null) deep_recursion
                    armed_long_symbols)
       = clobbered armed_long_symbols ++ extra
       /\ (length extra <= 2)%nat
       /\ forall p c, (p, c) ∈ extra -> 16384 < p.
Proof.
  assert (isHandlingCrash armed_long_symbols = 0) as Hg by (vm_compute; reflexivity).
  assert (len (cells (stackFrames armed_long_symbols)) = MAX_FRAMES) as Hl
    by (vm_compute; reflexivity).
  assert (16384 < SIZE_MODULUS arm64_long_symbols) as Hm by (vm_compute; reflexivity).
  assert (Forall (fun j => len (frame_piece arm64_long_symbols j 0x7000001234)
                           < SIZE_MODULUS arm64_long_symbols - 16384)
            (seqZ 0 128)) as Hall
    by (apply (bool_decide_unpack _); vm_compute; exact I).
  assert (forall j pc, 0 <= j < MAX_FRAMES -> pc ∈ unwound deep_recursion ->
            len (frame_piece arm64_long_symbols j pc)
            < SIZE_MODULUS arm64_long_symbols - 16384) as Hs.
  { intros j pc Hj Hpc. apply elem_of_replicate in Hpc as [-> _].
    rewrite Forall_forall in Hall. apply Hall.
    apply elem_of_seqZ. unfold MAX_FRAMES in Hj. lia. }
  split; [exact Hg|]. split; [exact Hl|]. split; [exact Hm|].
  exact (handler_clobbers_at_most_two_bytes arm64_long_symbols 11 (Some segv_at_null)
           deep_recursion armed_long_symbols Hg Hl Hm Hs).
Defined.

Lemma initialize_then_shutdown_restores_witness :
  isInitialized chained_boot = 0 /\ NoDup (kSignalsToHandle arm64)
  /\ table_get (disposition disarmed) 11 = table_get (disposition chained_boot) 11
  /\ isInitialized disarmed = 0.
Proof.
  assert (isInitialized chained_boot = 0) as Hi by reflexivity.
  assert (NoDup (kSignalsToHandle arm64)) as Hnd
    by (apply (bool_decide_unpack _); vm_compute; exact I).
  split; [exact Hi|]. split; [exact Hnd|].
  destruct (initialize_then_shutdown_restores arm64 77 0x7300000000 chained_boot Hi Hnd)
    as (Hd & H0 & _).
  split; [exact (Hd 11)|exact H0].
Defined.

Lemma initialize_after_crash_does_not_rearm_witness :
  isInitialized armed <> 0 /\ isHandlingCrash armed = 0 /\ sigaction_fails arm64 11 = false
  /\ MoonForge_Android_IsInitialized crashed = isInitialized armed
  /\ disposition (MoonForge_Android_InitializeCrashHandler arm64 88 0x7400000000 crashed) !! 11
     = Some (table_get (previousHandlers armed) 11).
Proof.
  assert (isInitialized armed <> 0) as Hi by (vm_compute; discriminate).
  assert (isHandlingCrash armed = 0) as Hg by (vm_compute; reflexivity).
  assert (sigaction_fails arm64 11 = false) as Hok by reflexivity.
  split; [exact Hi|]. split; [exact Hg|]. split; [exact Hok|].
  destruct (initialize_after_crash_does_not_rearm arm64 11 (Some segv_at_null) quiet
              88 0x7400000000 armed Hi Hg Hok) as (H1 & H2 & _).
  split; [exact H1|exact H2].
Defined.

Lemma rearming_after_crash_is_inert_witness :
  isHandlingCrash crashed <> 0 /\ 11 ∈ kSignalsToHandle arm64
  /\ sigaction_fails arm64 11 = false
  /\ sa_handler
       (table_get
          (disposition (MoonForge_Android_InitializeCrashHandler arm64 88 0x7400000000
                          (MoonForge_Android_ShutdownCrashHandler arm64 crashed))) 11)
     = fn_signalHandler
  /\ deliver arm64 11 (Some segv_at_null) quiet
       (MoonForge_Android_InitializeCrashHandler arm64 88 0x7400000000
          (MoonForge_Android_ShutdownCrashHandler arm64 crashed))
     = runs_engine
         (MoonForge_Android_InitializeCrashHandler arm64 88 0x7400000000
            (MoonForge_Android_ShutdownCrashHandler arm64 crashed)).
Proof.
  assert (isHandlingCrash crashed <> 0) as Hg by (vm_compute; discriminate).
  assert (11 ∈ kSignalsToHandle arm64) as Hin
    by (apply (bool_decide_unpack _); vm_compute; exact I).
  assert (sigaction_fails arm64 11 = false) as Hok by reflexivity.
  split; [exact Hg|]. split; [exact Hin|]. split; [exact Hok|].
  destruct (rearming_after_crash_is_inert arm64 88 0x7400000000 crashed 11 11
              (Some segv_at_null) quiet Hg Hin Hok) as (H1 & H2 & _).
  split; [unfold table_get; rewrite H1; reflexivity|exact H2].
Defined.

Lemma callback_entered_iff_registered_witness :
  isInitialized chained_boot = 0 /\ isHandlingCrash chained_boot = 0
  /\ crashCallback armed = 77
  /\ invocations (trace crashed) = (invocations (trace chained_boot) + 1)%nat.
Proof.
  assert (isInitialized chained_boot = 0) as Hi by reflexivity.
  assert (isHandlingCrash chained_boot = 0) as Hg by reflexivity.
  split; [exact Hi|]. split; [exact Hg|].
  destruct (callback_entered_iff_registered arm64 77 0x7300000000 11 (Some segv_at_null)
              quiet chained_boot Hi Hg) as (H1 & H2 & _).
  split; [exact H1|exact H2].
Defined.

Lemma alternate_stack_regions_accumulate_witness :
  isInitialized chained_boot = 0 /\ 0x7300000000 <> 0 /\ 0x7400000000 <> 0
  /\ altstack disarmed
     = Some {| ss_sp := 0x7300000000; ss_flags := 0; ss_size := SIGSTKSZ arm64 |}
  /\ heap (MoonForge_Android_InitializeCrashHandler arm64 88 0x7400000000 disarmed)
     = heap chained_boot
       ++ [(0x7300000000, SIGSTKSZ arm64); (0x7400000000, SIGSTKSZ arm64)].
Proof.
  assert (isInitialized chained_boot = 0) as Hi by reflexivity.
  assert (0x7300000000 <> 0) as H1 by discriminate.
  assert (0x7400000000 <> 0) as H2 by discriminate.
  split; [exact Hi|]. split; [exact H1|]. split; [exact H2|].
  destruct (alternate_stack_regions_accumulate arm64 77 0x7300000000 88 0x7400000000
              chained_boot Hi H1 H2) as (Ha & _ & _ & Hh).
  split; [exact Ha|exact Hh].
Defined.

Lemma jni_hooks_leave_engine_alone_witness :
  (Java_com_moonforge_errortracking_CrashHandler_nativeSimulateCrash false 1 armed).2
  = Some call_abort.
Proof.
  exact (proj1 (proj2 (proj1 (proj2
           (jni_hooks_leave_engine_alone false 1 armed)) eq_refl)) eq_refl).
Defined.

Lemma initialize_saves_what_it_replaces_witness :
  isInitialized chained_boot = 0 /\ NoDup (kSignalsToHandle arm64)
  /\ 11 ∈ kSignalsToHandle arm64 /\ sigaction_fails arm64 11 = false
  /\ previousHandlers armed !! 11 = Some (table_get (disposition chained_boot) 11).
Proof.
  assert (isInitialized chained_boot = 0) as Hi by reflexivity.
  assert (NoDup (kSignalsToHandle arm64)) as Hnd
    by (apply (bool_decide_unpack _); vm_compute; exact I).
  assert (11 ∈ kSignalsToHandle arm64) as Hin
    by (apply (bool_decide_unpack _); vm_compute; exact I).
  split; [exact Hi|]. split; [exact Hnd|]. split; [exact Hin|]. split; [reflexivity|].
  exact (proj1 (initialize_saves_what_it_replaces arm64 77 0x7300000000 chained_boot 11
                  Hi Hnd) Hin eq_refl).
Defined.

Lemma handler_writes_whole_document_witness :
  isHandlingCrash armed = 0 /\ len (cells (crashJsonBuffer armed)) = 32768
  /\ exists rest,
      cells (crashJsonBuffer crashed)
      = crash_text arm64 11 (Some segv_at_null) 0 4242
          (cells (formatStackTraceJson arm64 (fresh (resize (Z.to_nat 16384) NUL []))
                    16384
                    (cells (captureStackTrace (unwound quiet) (stackFrames armed) MAX_FRAMES).1)
                    (captureStackTrace (unwound quiet) (stackFrames armed) MAX_FRAMES).2).1)
        ++ NUL :: rest.
Proof.
  assert (isHandlingCrash armed = 0) as Hg by (vm_compute; reflexivity).
  assert (len (cells (crashJsonBuffer armed)) = 32768) as Hl by (vm_compute; reflexivity).
  split; [exact Hg|]. split; [exact Hl|].
  apply (handler_writes_whole_document arm64 11 (Some segv_at_null) quiet armed Hg Hl).
  vm_compute. reflexivity.
Defined.
